(** * DCL wearable validator: triangle budgets and validation rules

    A shallow embedding of [src/lib/types.ts], [src/lib/budgets.ts] and
    [src/lib/runValidation.ts], followed by the properties of the
    triangle-budget resolver and of the rule engine.

    Conventions.
    - The [Slot] union type is an enumeration.
    - Triangle budgets are integer-valued JavaScript numbers.  A JavaScript
      array holds fewer than 2^32 elements and no slot budget exceeds 5000,
      so every sum formed by [computeTriangleBudget] stays far below 2^53
      and double arithmetic on it is exact: budgets are modelled in [Z].
    - The numbers of [ModelStats] are IEEE 754 binary64 values
      ([spec_float] at precision 53, [emax] 1024); the arithmetic and the
      comparisons of the rule engine are the binary64 ones.
    - Template literals are kept as lists of pieces; the formatting of a
      number ([toString], [toFixed], [toLocaleString]) is left symbolic. *)

From Stdlib Require Import ZArith Zpower List String Bool Lia Permutation.
From Stdlib Require Import SpecFloat.
Import ListNotations.

Local Open Scope Z_scope.

(** ** [src/lib/types.ts]: slots and selections *)

Inductive Slot : Type :=
  | hat | helmet | upper_body | lower_body | feet | hair
  | mask | eyewear | earring | tiara | top_head | facial_hair
  | hands | skin | head.

Definition Slot_eq_dec (a b : Slot) : {a = b} + {a <> b}.
Proof. decide equality. Defined.

(** [a === b] on slots. *)
Definition Slot_eqb (a b : Slot) : bool :=
  if Slot_eq_dec a b then true else false.

Record BudgetConfig : Type := {
  baseTriangles : Z;
  maxMaterials : Z;
  maxTextures : Z;
  helmetAllHeadHiddenTriangles : option Z
}.

(** [handHidesBase?: boolean] may be absent. *)
Record UserSelection : Type := {
  targetSlot : Slot;
  hiddenSlots : list Slot;
  handHidesBase : option bool
}.

(** ** [src/lib/budgets.ts] *)

Module Budgets.

Definition BASE_TRI_BUDGET (s : Slot) : Z :=
  match s with
  | hat => 1500
  | helmet => 1500
  | upper_body => 1500
  | lower_body => 1500
  | feet => 1500
  | hair => 1500
  | mask => 500
  | eyewear => 500
  | earring => 500
  | tiara => 500
  | top_head => 500
  | facial_hair => 500
  | hands => 1000
  | skin => 5000
  | head => 500
  end.

Definition HELMET_HIDE_SET : list Slot :=
  [head; earring; eyewear; tiara; hat; facial_hair; hair; top_head].

Definition BASE_BUDGET_CONFIG (s : Slot) : BudgetConfig :=
  match s with
  | hat => Build_BudgetConfig 1500 2 2 None
  | helmet => Build_BudgetConfig 1500 2 2 (Some 4000)
  | upper_body => Build_BudgetConfig 1500 2 2 None
  | lower_body => Build_BudgetConfig 1500 2 2 None
  | feet => Build_BudgetConfig 1500 2 2 None
  | hair => Build_BudgetConfig 1500 2 2 None
  | mask => Build_BudgetConfig 500 2 2 None
  | eyewear => Build_BudgetConfig 500 2 2 None
  | earring => Build_BudgetConfig 500 2 2 None
  | tiara => Build_BudgetConfig 500 2 2 None
  | top_head => Build_BudgetConfig 500 2 2 None
  | facial_hair => Build_BudgetConfig 500 2 2 None
  | hands => Build_BudgetConfig 1000 2 2 None
  | skin => Build_BudgetConfig 5000 2 5 None
  | head => Build_BudgetConfig 500 2 2 None
  end.

(** Truthiness of an optional boolean. *)
Definition truthy (b : option bool) : bool :=
  match b with
  | Some true => true
  | _ => false
  end.

(** [x || 0] on an integer-valued number: [0] is the only falsy one. *)
Definition or_zero (x : Z) : Z := if x =? 0 then 0 else x.

(** [hiddenSlots.includes(slot)] *)
Definition includes (l : list Slot) (s : Slot) : bool :=
  existsb (Slot_eqb s) l.

(** [hiddenSlots.reduce((sum, slot) => sum + (BASE_TRI_BUDGET[slot] || 0), 0)] *)
Definition sumHidden (l : list Slot) : Z :=
  fold_left (fun sum slot => sum + or_zero (BASE_TRI_BUDGET slot)) l 0.

Definition computeTriangleBudget (selection : UserSelection) : Z :=
  let target := targetSlot selection in
  let hidden := hiddenSlots selection in
  if Slot_eqb target skin then 5000
  else if Slot_eqb target hands && truthy (handHidesBase selection) then 1500
  else
    let baseBudget := BASE_TRI_BUDGET target in
    let combinedBudget := baseBudget + sumHidden hidden in
    if Slot_eqb target helmet then
      let allHeadHidden := forallb (fun slot => includes hidden slot) HELMET_HIDE_SET in
      if allHeadHidden then 4000 else combinedBudget
    else combinedBudget.

Definition getBudgetConfig (slot : Slot) : BudgetConfig :=
  BASE_BUDGET_CONFIG slot.

Definition getAvailableTargetSlots : list Slot :=
  [hat; helmet; upper_body; lower_body; feet; hair; mask; eyewear;
   earring; tiara; top_head; facial_hair; hands; skin].

Definition getAvailableHiddenSlots (target : option Slot) : list Slot :=
  match target with
  | None => []
  | Some t => filter (fun slot => negb (Slot_eqb slot t)) getAvailableTargetSlots
  end.

Definition isHelmetSpecialRule (selection : UserSelection) : bool :=
  Slot_eqb (targetSlot selection) helmet
  && forallb (fun slot => includes (hiddenSlots selection) slot) HELMET_HIDE_SET.

Definition getSkinRequiredHiddenSlots : list Slot :=
  filter (fun slot => negb (Slot_eqb slot skin)) getAvailableTargetSlots.

End Budgets.

(** ** JavaScript numbers: IEEE 754 binary64 *)

Module Number.

Definition prec : Z := 53.
Definition emax : Z := 1024.

Definition number : Type := spec_float.

(** The number denoted by an integer literal or held by an integer-valued
    variable: [z] rounded to the nearest binary64 value (exact whenever
    [|z| <= 2^53]). *)
Definition of_Z (z : Z) : number := binary_normalize prec emax z 0 false.

Definition add (x y : number) : number := SFadd prec emax x y.
Definition sub (x y : number) : number := SFsub prec emax x y.
Definition mul (x y : number) : number := SFmul prec emax x y.
Definition div (x y : number) : number := SFdiv prec emax x y.

(** [x > y], [x <= y], [x === y] and [x !== y]; every ordered comparison
    with NaN is false. *)
Definition gt (x y : number) : bool := SFltb y x.
Definition le (x y : number) : bool := SFleb x y.
Definition strict_eq (x y : number) : bool := SFeqb x y.
Definition strict_neq (x y : number) : bool := negb (SFeqb x y).

(** The decimal literal [n / 10^k] (for instance [0.005] is [decimal 5 3]):
    the binary64 value nearest to it.  Numerator and denominator are exact
    and binary64 division rounds correctly, so the quotient is that value. *)
Definition decimal (n : Z) (k : Z) : number := div (of_Z n) (of_Z (10 ^ k)).

(** [Math.ceil]: NaN, the infinities and the zeros are returned unchanged,
    and so is a finite value with a non-negative exponent (an integer);
    otherwise the mantissa is shifted right and rounded towards plus
    infinity, with [-0] for a negative value above [-1]. *)
Definition ceil (x : number) : number :=
  match x with
  | S754_finite s m e =>
      if 0 <=? e then x
      else
        let q := Z.shiftr (Zpos m) (- e) in
        let exact := Z.shiftl q (- e) =? Zpos m in
        if s then binary_normalize prec emax (- q) 0 true
        else of_Z (if exact then q else q + 1)
  | _ => x
  end.

(** Whether [x] is a binary64 value. *)
Definition valid (x : number) : bool := valid_binary prec emax x.

End Number.

(** ** [src/lib/types.ts]: statistics, rule results and reports *)

Import Number.

(** A template literal: text with numbers still to be formatted. *)
Inductive piece : Type :=
  | Lit (s : string)              (* literal text, or an interpolated string *)
  | Num (x : number)              (* [${x}] *)
  | Fixed2 (x : number)           (* [${x.toFixed(2)}] *)
  | Locale (x : number).          (* [${x.toLocaleString()}] *)

Definition text : Type := list piece.

Record Texture : Type := {
  tex_name : string;
  tex_width : number;
  tex_height : number
}.

Inductive AlphaMode : Type := OPAQUE | MASK | BLEND.

Record BBox : Type := {
  width : number;
  height : number;
  depth : number
}.

Record Normals : Type := {
  invertedVertexRatio : number;
  invertedFaceRatio : number
}.

Record Skinning : Type := {
  totalVertices : number;
  badWeightVertices : number
}.

Record ModelStats : Type := {
  triangleCount : number;
  materialCountExclAvatarSkin : number;
  textures : list Texture;
  usedTextureCount : number;
  hasNormalMaps : bool;
  hasMetallicRoughnessMaps : bool;
  alphaModes : list AlphaMode;
  bbox : BBox;
  normals : Normals;
  skinning : option Skinning;
  fileSizeBytes : number
}.

Inductive RuleSeverity : Type := PASS | WARN | FAIL.

Inductive Category : Type :=
  | Geometry | Materials | TexturesMaps | NormalsCategory
  | SkinWeights | Dimensions | FileIntegrity.

Record RuleResult : Type := {
  id : string;
  category : Category;
  expected : text;
  actual : text;
  result : RuleSeverity;
  tip : option text
}.

(** [targetSlot], [maxMaterials] and [maxTextures] already name fields of
    [UserSelection] and [BudgetConfig]; the report's carry a prefix. *)
Record ValidationReport : Type := {
  overall : RuleSeverity;
  report_targetSlot : Slot;
  appliedTriangleBudget : Z;
  report_maxMaterials : Z;
  report_maxTextures : Z;
  results : list RuleResult;
  notes : list string;
  fileName : string;
  modelStats : ModelStats
}.

(** ** [src/lib/runValidation.ts] *)

Module Validation.

Local Open Scope string_scope.
Local Open Scope list_scope.

(** [cond ? t : undefined] *)
Definition tip_when (cond : bool) (t : text) : option text :=
  if cond then Some t else None.

Definition is_FAIL (r : RuleSeverity) : bool :=
  match r with FAIL => true | _ => false end.

Definition is_WARN (r : RuleSeverity) : bool :=
  match r with WARN => true | _ => false end.

(** [l.length] as a number. *)
Definition length_number {A : Type} (l : list A) : number :=
  of_Z (Z.of_nat (List.length l)).

(** [l.length === 0] *)
Definition is_empty {A : Type} (l : list A) : bool :=
  match l with [] => true | _ => false end.

(** [textures.map(t => t.name).join(', ')] *)
Definition join_names (l : list Texture) : string :=
  String.concat ", " (map tex_name l).

Definition validateTriangles (stats : ModelStats) (maxTriangles : number) : RuleResult :=
  let actual := triangleCount stats in
  let result := if le actual maxTriangles then PASS else FAIL in
  {| id := "triangles";
     category := Geometry;
     expected := [Lit "≤ "; Locale maxTriangles; Lit " triangles"];
     actual := [Locale actual; Lit " triangles"];
     result := result;
     tip := tip_when (is_FAIL result)
              [Lit "Reduce triangles by ";
               Num (ceil (mul (div (sub actual maxTriangles) actual) (of_Z 100)));
               Lit "%"] |}.

Definition validateMaterials (stats : ModelStats) (maxMaterials : number) : RuleResult :=
  let actual := materialCountExclAvatarSkin stats in
  let result := if le actual maxMaterials then PASS else FAIL in
  {| id := "materials";
     category := Materials;
     expected := [Lit "≤ "; Num maxMaterials; Lit " materials"];
     actual := [Num actual; Lit " materials"];
     result := result;
     tip := tip_when (is_FAIL result)
              [Lit "Remove "; Num (sub actual maxMaterials);
               Lit " material(s) or combine similar materials"] |}.

Definition validateTextures (stats : ModelStats) (maxTextures : number) : RuleResult :=
  let actual := usedTextureCount stats in
  let result := if le actual maxTextures then PASS else FAIL in
  {| id := "textures";
     category := TexturesMaps;
     expected := [Lit "≤ "; Num maxTextures; Lit " textures"];
     actual := [Num actual; Lit " textures"];
     result := result;
     tip := tip_when (is_FAIL result)
              [Lit "Remove "; Num (sub actual maxTextures);
               Lit " texture(s) or combine similar textures"] |}.

Definition validateTextureSizes (stats : ModelStats) : RuleResult :=
  let oversizedTextures :=
    filter (fun t => gt (tex_width t) (of_Z 1024) || gt (tex_height t) (of_Z 1024))
           (textures stats) in
  let result := if is_empty oversizedTextures then PASS else FAIL in
  {| id := "texture-sizes";
     category := TexturesMaps;
     expected := [Lit "All textures ≤ 1024×1024"];
     actual := if is_empty oversizedTextures
               then [Lit "All textures within size limit"]
               else [Num (length_number oversizedTextures);
                     Lit " texture(s) exceed 1024×1024"];
     result := result;
     tip := tip_when (is_FAIL result)
              [Lit "Resize "; Lit (join_names oversizedTextures);
               Lit " to 1024×1024 or smaller"] |}.

Definition validateTextureSquare (stats : ModelStats) : RuleResult :=
  let nonSquareTextures :=
    filter (fun t => strict_neq (tex_width t) (tex_height t)) (textures stats) in
  let result := if is_empty nonSquareTextures then PASS else WARN in
  {| id := "texture-square";
     category := TexturesMaps;
     expected := [Lit "All textures are square (recommended)"];
     actual := if is_empty nonSquareTextures
               then [Lit "All textures are square"]
               else [Num (length_number nonSquareTextures);
                     Lit " texture(s) are not square"];
     result := result;
     tip := tip_when (is_WARN result)
              [Lit "Make "; Lit (join_names nonSquareTextures);
               Lit " square for better performance (optional)"] |}.

Definition validateNormalMaps (stats : ModelStats) : RuleResult :=
  let result := if negb (hasNormalMaps stats) then PASS else WARN in
  {| id := "normal-maps";
     category := TexturesMaps;
     expected := [Lit "No normal maps (DCL uses toon shader)"];
     actual := if hasNormalMaps stats
               then [Lit "Normal maps detected"] else [Lit "No normal maps"];
     result := result;
     tip := tip_when (is_WARN result)
              [Lit "Remove normal maps - DCL uses toon shader that doesn't benefit from normal maps"] |}.

Definition validateMetallicRoughnessMaps (stats : ModelStats) : RuleResult :=
  let result := if negb (hasMetallicRoughnessMaps stats) then PASS else WARN in
  {| id := "metallic-roughness-maps";
     category := TexturesMaps;
     expected := [Lit "No metallic/roughness maps (DCL uses toon shader)"];
     actual := if hasMetallicRoughnessMaps stats
               then [Lit "Metallic/roughness maps detected"]
               else [Lit "No metallic/roughness maps"];
     result := result;
     tip := tip_when (is_WARN result)
              [Lit "Remove metallic/roughness maps - DCL uses toon shader that doesn't benefit from PBR maps"] |}.

Definition validateSkinWeights (stats : ModelStats) : RuleResult :=
  match skinning stats with
  | None =>
      {| id := "skin-weights";
         category := SkinWeights;
         expected := [Lit "Valid skin weights"];
         actual := [Lit "No skinning data"];
         result := PASS;
         tip := None |}
  | Some sk =>
      let totalVertices := totalVertices sk in
      let badWeightVertices := badWeightVertices sk in
      let badRatio := div badWeightVertices totalVertices in
      let '(result, tip) :=
        if gt badRatio (decimal 3 2) then
          (FAIL, Some [Lit "Fix skin weights - more than 3% of vertices have invalid weights"])
        else if gt badRatio (decimal 5 3) then
          (WARN, Some [Lit "Some vertices have invalid skin weights - check weight painting"])
        else (PASS, None) in
      {| id := "skin-weights";
         category := SkinWeights;
         expected := [Lit "≤ 0.5% vertices with bad weights"];
         actual := [Num badWeightVertices; Lit "/"; Num totalVertices;
                    Lit " vertices ("; Fixed2 (mul badRatio (of_Z 100)); Lit "%)"];
         result := result;
         tip := tip |}
  end.

Definition validateDimensions (stats : ModelStats) : RuleResult :=
  let width := width (bbox stats) in
  let height := height (bbox stats) in
  let depth := depth (bbox stats) in
  let maxWidth := decimal 242 2 in
  let maxHeight := decimal 242 2 in
  let maxDepth := decimal 14 1 in
  let exceedsWidth := gt width maxWidth in
  let exceedsHeight := gt height maxHeight in
  let exceedsDepth := gt depth maxDepth in
  let result := if exceedsWidth || exceedsHeight || exceedsDepth then FAIL else PASS in
  {| id := "dimensions";
     category := Dimensions;
     expected := [Lit "≤ "; Num maxWidth; Lit "m × "; Num maxHeight;
                  Lit "m × "; Num maxDepth; Lit "m"];
     actual := [Fixed2 width; Lit "m × "; Fixed2 height; Lit "m × ";
                Fixed2 depth; Lit "m"];
     result := result;
     tip := tip_when (is_FAIL result)
              [Lit "Scale down model to fit within "; Num maxWidth; Lit "m × ";
               Num maxHeight; Lit "m × "; Num maxDepth; Lit "m bounds"] |}.

Definition validateFileIntegrity (stats : ModelStats) : RuleResult :=
  let hasZeroTriangles := strict_eq (triangleCount stats) (of_Z 0) in
  let hasNoMaterials := strict_eq (materialCountExclAvatarSkin stats) (of_Z 0) in
  let issues :=
    (if hasZeroTriangles then ["No triangles found"] else [])
    ++ (if hasNoMaterials then ["No materials found"] else []) in
  let result := if is_empty issues then PASS else FAIL in
  {| id := "file-integrity";
     category := FileIntegrity;
     expected := [Lit "Valid model structure"];
     actual := if is_empty issues
               then [Lit "Model structure is valid"]
               else [Lit (String.concat ", " issues)];
     result := result;
     tip := tip_when (is_FAIL result)
              [Lit "Check model export - ensure it contains geometry and materials"] |}.

Definition validateFileSize (stats : ModelStats) : RuleResult :=
  let fileSizeMB := div (fileSizeBytes stats) (mul (of_Z 1024) (of_Z 1024)) in
  let maxSizeMB := of_Z 3 in
  let recommendedSizeMB := of_Z 1 in
  let '(result, tip) :=
    if gt fileSizeMB maxSizeMB then
      (FAIL, Some [Lit "File size exceeds DCL limit of "; Num maxSizeMB;
                   Lit "MB. Reduce file size by optimizing textures or simplifying geometry."])
    else if gt fileSizeMB recommendedSizeMB then
      (WARN, Some [Lit "File size is "; Fixed2 fileSizeMB;
                   Lit "MB. For best performance, keep single items under ";
                   Num recommendedSizeMB;
                   Lit "MB (can be up to 2MB if thumbnail is under 1MB)."])
    else (PASS, None) in
  {| id := "file-size";
     category := FileIntegrity;
     expected := [Lit "≤ "; Num maxSizeMB; Lit "MB (recommended: ≤ ";
                  Num recommendedSizeMB; Lit "MB)"];
     actual := [Fixed2 fileSizeMB; Lit "MB"];
     result := result;
     tip := tip |}.

Definition calculateOverallResult (results : list RuleResult) : RuleSeverity :=
  let hasFail := existsb (fun r => is_FAIL (result r)) results in
  let hasWarn := existsb (fun r => is_WARN (result r)) results in
  if hasFail then FAIL
  else if hasWarn then WARN
  else PASS.

Definition generateNotes (_stats : ModelStats) (selection : UserSelection) : list string :=
  (if Slot_eqb (targetSlot selection) helmet && negb (is_empty (hiddenSlots selection))
   then ["Helmet with hidden slots: triangle budget combines hidden slot budgets."]
   else [])
  ++ (if Slot_eqb (targetSlot selection) hands && Budgets.truthy (handHidesBase selection)
      then ["Hand accessory hides base hand: triangle budget increased to 1.5k."]
      else []).

(** The rule results in the order in which they are pushed; the inverted
    normals check is commented out in the source. *)
Definition runValidation (stats : ModelStats) (selection : UserSelection)
    (fileName : string) : ValidationReport :=
  let appliedTriangleBudget := Budgets.computeTriangleBudget selection in
  let budgetConfig := Budgets.getBudgetConfig (targetSlot selection) in
  let results :=
    [validateTriangles stats (of_Z appliedTriangleBudget)]
    ++ [validateMaterials stats (of_Z (maxMaterials budgetConfig))]
    ++ [validateTextures stats (of_Z (maxTextures budgetConfig))]
    ++ [validateTextureSizes stats]
    ++ [validateTextureSquare stats]
    ++ [validateNormalMaps stats]
    ++ [validateMetallicRoughnessMaps stats]
    ++ (match skinning stats with
        | Some _ => [validateSkinWeights stats]
        | None => []
        end)
    ++ [validateDimensions stats]
    ++ [validateFileIntegrity stats]
    ++ [validateFileSize stats] in
  let overall := calculateOverallResult results in
  let notes := generateNotes stats selection in
  {| overall := overall;
     report_targetSlot := targetSlot selection;
     appliedTriangleBudget := appliedTriangleBudget;
     report_maxMaterials := maxMaterials budgetConfig;
     report_maxTextures := maxTextures budgetConfig;
     results := results;
     notes := notes;
     fileName := fileName;
     modelStats := stats |}.

End Validation.

(** ** [src/lib/report.ts] and [src/components/ResultsPanel.tsx]: grouping *)

Module Report.

Definition Category_eq_dec (a b : Category) : {a = b} + {a <> b}.
Proof. decide equality. Defined.

Definition Category_eqb (a b : Category) : bool :=
  if Category_eq_dec a b then true else false.

(** One step of the reduction
    [if (!acc[result.category]) acc[result.category] = [];
     acc[result.category].push(result)]
    on an object whose keys are kept in insertion order (category names are
    not integer-like, so [Object.entries] lists them in that order). *)
Fixpoint push_result (acc : list (Category * list RuleResult)) (r : RuleResult)
    : list (Category * list RuleResult) :=
  match acc with
  | [] => [(category r, [r])]
  | (c, rs) :: rest =>
      if Category_eqb c (category r) then (c, rs ++ [r]) :: rest
      else (c, rs) :: push_result rest r
  end.

(** [Object.entries(results.reduce(..., {}))] *)
Definition resultsByCategory (results : list RuleResult)
    : list (Category * list RuleResult) :=
  fold_left push_result results [].

(** The severity shown on a category of the results panel. *)
Definition categorySeverity (categoryResults : list RuleResult) : RuleSeverity :=
  if existsb (fun r => Validation.is_FAIL (result r)) categoryResults then FAIL
  else if existsb (fun r => Validation.is_WARN (result r)) categoryResults then WARN
  else PASS.

End Report.


(** ** [src/lib/gltfUtils.ts]

    The three.js objects are modelled as far as the analysis reads them: an
    object is possibly a mesh and has children; a mesh has a geometry (the
    item count of its index and of its position attribute, and the skinning
    attributes as lists of four-component items), one material or an array
    of materials, and, when it is a [SkinnedMesh], possibly a skeleton with a
    number of bones.  A material is identified by its [uuid] (the [Set] of
    materials compares objects by identity).  Reading an attribute past its
    end yields [undefined], which the analysis cannot tell from NaN
    ([isNaN(undefined)] holds, sums with it are NaN, comparisons fail); such
    reads are modelled as NaN.  Vertex counts are integers and are kept in
    [Z], like the budgets.  What three.js computes itself, the size of the
    world bounding box, and the conversion of a number to a string are taken
    as given; so is the set of objects on which computing the bounding box
    throws (three.js does on a skinned mesh it cannot pose). *)

Module GltfUtils.

Record Image : Type := { image_width : number; image_height : number }.

(** A [THREE.Texture], whose [image] may be missing. *)
Record ThreeTexture : Type := { image : option Image }.

Record Material : Type := {
  uuid : string;
  name : string;
  transparent : bool;
  alphaTest : number;
  isMeshStandardMaterial : bool;
  map_ : option ThreeTexture;           (* the property [map] *)
  emissiveMap : option ThreeTexture;
  normalMap : option ThreeTexture;
  metalnessMap : option ThreeTexture;
  roughnessMap : option ThreeTexture;
  aoMap : option ThreeTexture;
  displacementMap : option ThreeTexture
}.

Record Vec4 : Type := { getX : number; getY : number; getZ : number; getW : number }.

Record BufferGeometry : Type := {
  index : option number;                (* [geometry.index.count] *)
  position : option number;             (* [getAttribute('position').count] *)
  skinIndex : option (list Vec4);
  skinWeight : option (list Vec4)
}.

Inductive MeshKind : Type :=
  | PlainMesh
  | SkinnedMesh (skeleton : option Z).  (* [skeleton.bones.length] *)

Record Mesh : Type := {
  kind : MeshKind;
  geometry : BufferGeometry;
  material : Material + list Material   (* one material, or an array *)
}.

#[warnings="-register-all"]
Inductive Object3D : Type :=
  | Object3D_node (mesh : option Mesh) (children : list Object3D).

(** What the analysis takes from three.js and from the language. *)
Record Library : Type := {
  worldSize : Object3D -> BBox;         (* [box3ToDimensions(getWorldBoundingBox(o))] *)
  boundingBoxThrows : Object3D -> bool; (* whether [box.setFromObject(o)] throws *)
  numberToString : number -> string     (* [`${x}`] *)
}.

Definition isNaN (x : number) : bool :=
  match x with S754_nan => true | _ => false end.

(** [x < y] and [x >= y] *)
Definition lt (x y : number) : bool := SFltb x y.
Definition ge (x y : number) : bool := SFleb y x.

(** [object.traverse]: the object itself, then its children in order; the
    callback of [traverseMeshes] keeps the meshes. *)
Fixpoint traverseMeshes (object : Object3D) : list Mesh :=
  match object with
  | Object3D_node m children =>
      (match m with Some mesh => [mesh] | None => [] end)
      ++ flat_map traverseMeshes children
  end.

Definition getTriangleCount (mesh : Mesh) : number :=
  match index (geometry mesh) with
  | Some count => div count (of_Z 3)
  | None =>
      match position (geometry mesh) with
      | Some count => div count (of_Z 3)
      | None => of_Z 0
      end
  end.

(** [texture && texture.image] *)
Definition texture_image (t : option ThreeTexture) : option Image :=
  match t with
  | Some tex => image tex
  | None => None
  end.

Definition textureTypes : list ((Material -> option ThreeTexture) * string) :=
  [(map_, "baseColor"); (emissiveMap, "emission"); (normalMap, "normal");
   (metalnessMap, "metallic"); (roughnessMap, "roughness"); (aoMap, "ao");
   (displacementMap, "displacement")]%string.

Record TextureInfo : Type := {
  info_textures : list Texture;
  info_hasNormalMaps : bool;
  info_hasMetallicRoughnessMaps : bool
}.

(** One turn of the loop over [textureTypes]. *)
Definition extractTextureStep (mat : Material) (info : TextureInfo)
    (ty : (Material -> option ThreeTexture) * string) : TextureInfo :=
  match texture_image (fst ty mat) with
  | Some img =>
      {| info_textures :=
           info_textures info
           ++ [ {| tex_name := snd ty;
                   tex_width := image_width img;
                   tex_height := image_height img |} ];
         info_hasNormalMaps :=
           if String.eqb (snd ty) "normal" then true else info_hasNormalMaps info;
         info_hasMetallicRoughnessMaps :=
           if String.eqb (snd ty) "metallic" || String.eqb (snd ty) "roughness"
           then true else info_hasMetallicRoughnessMaps info |}
  | None => info
  end.

Definition extractTextureInfo (mat : Material) : TextureInfo :=
  let info :=
    fold_left (extractTextureStep mat) textureTypes
      {| info_textures := [];
         info_hasNormalMaps := false;
         info_hasMetallicRoughnessMaps := false |} in
  if isMeshStandardMaterial mat
  then
    if (match texture_image (metalnessMap mat) with Some _ => true | None => false end)
       || (match texture_image (roughnessMap mat) with Some _ => true | None => false end)
    then {| info_textures := info_textures info;
            info_hasNormalMaps := info_hasNormalMaps info;
            info_hasMetallicRoughnessMaps := true |}
    else info
  else info.

Definition getAlphaMode (mat : Material) : AlphaMode :=
  if transparent mat
  then (if gt (alphaTest mat) (of_Z 0) then MASK else BLEND)
  else OPAQUE.

(** The item [i] of an attribute; NaN components past its end. *)
Definition item (attribute : list Vec4) (i : nat) : Vec4 :=
  nth i attribute
      {| getX := S754_nan; getY := S754_nan; getZ := S754_nan; getW := S754_nan |}.

Definition components (v : Vec4) : list number := [getX v; getY v; getZ v; getW v].

(** Whether vertex [i] counts as badly weighted. *)
Definition badVertex (bones : Z) (indexAttr weightAttr : list Vec4) (i : nat) : bool :=
  let weights := components (item weightAttr i) in
  let indices := components (item indexAttr i) in
  let weightSum := fold_left (fun sum w => add sum w) weights (of_Z 0) in
  let hasInvalidWeights :=
    existsb (fun w => isNaN w || lt w (of_Z 0)) weights
    || lt weightSum (decimal 98 2) || gt weightSum (decimal 102 2) in
  let hasInvalidIndices :=
    existsb (fun idx => isNaN idx || lt idx (of_Z 0) || ge idx (of_Z bones)) indices in
  hasInvalidWeights || hasInvalidIndices.

Record SkinningData : Type := { sd_totalVertices : Z; sd_badWeightVertices : Z }.

(** [mesh.skeleton?.bones.length || 0] *)
Definition bonesLength (skeleton : option Z) : Z :=
  match skeleton with Some n => n | None => 0 end.

Definition analyzeSkinning (skeleton : option Z) (g : BufferGeometry) : SkinningData :=
  match skinIndex g, skinWeight g with
  | Some indexAttr, Some weightAttr =>
      let totalVertices := List.length indexAttr in
      {| sd_totalVertices := Z.of_nat totalVertices;
         sd_badWeightVertices :=
           Z.of_nat (List.length
                       (filter (badVertex (bonesLength skeleton) indexAttr weightAttr)
                               (seq 0 totalVertices))) |}
  | _, _ => {| sd_totalVertices := 0; sd_badWeightVertices := 0 |}
  end.

Definition analyzeNormals (_model : Object3D) : Normals :=
  {| invertedVertexRatio := of_Z 0; invertedFaceRatio := of_Z 0 |}.

(** [Array.isArray(mesh.material) ? mesh.material : [mesh.material]] *)
Definition materialArray (mesh : Mesh) : list Material :=
  match material mesh with
  | inl mat => [mat]
  | inr mats => mats
  end.

(** [materials.add(mat)] on a set kept in insertion order. *)
Definition set_add (materials : list Material) (mat : Material) : list Material :=
  if existsb (fun m => String.eqb (uuid m) (uuid mat)) materials
  then materials
  else materials ++ [mat].

(** [new Set(keys).size] *)
Definition distinct_count (keys : list string) : nat :=
  List.length (nodup string_dec keys).

Definition analyzeModel (lib : Library) (model : Object3D) (fileSizeBytes : number)
    : ModelStats :=
  let meshes := traverseMeshes model in
  let triangleCount :=
    fold_left (fun count mesh => add count (getTriangleCount mesh)) meshes (of_Z 0) in
  let materials :=
    fold_left (fun set mesh => fold_left set_add (materialArray mesh) set) meshes [] in
  let visited := flat_map materialArray meshes in
  let textures := flat_map (fun mat => info_textures (extractTextureInfo mat)) visited in
  let hasNormalMaps :=
    existsb (fun mat => info_hasNormalMaps (extractTextureInfo mat)) visited in
  let hasMetallicRoughnessMaps :=
    existsb (fun mat => info_hasMetallicRoughnessMaps (extractTextureInfo mat)) visited in
  let alphaModes := map getAlphaMode visited in
  let skinningData :=
    flat_map (fun mesh =>
                match kind mesh with
                | SkinnedMesh skeleton => [analyzeSkinning skeleton (geometry mesh)]
                | PlainMesh => []
                end) meshes in
  let totalVertices := fold_left (fun n d => n + sd_totalVertices d) skinningData 0 in
  let badWeightVertices :=
    fold_left (fun n d => n + sd_badWeightVertices d) skinningData 0 in
  let materialCountExclAvatarSkin :=
    List.length (filter (fun mat => negb (String.eqb (name mat) "AvatarSkin_MAT"))
                        materials) in
  let usedTextureCount :=
    distinct_count
      (map (fun t => (tex_name t ++ "-" ++ numberToString lib (tex_width t)
                      ++ "-" ++ numberToString lib (tex_height t))%string)
           textures) in
  {| triangleCount := triangleCount;
     materialCountExclAvatarSkin := of_Z (Z.of_nat materialCountExclAvatarSkin);
     textures := textures;
     usedTextureCount := of_Z (Z.of_nat usedTextureCount);
     hasNormalMaps := hasNormalMaps;
     hasMetallicRoughnessMaps := hasMetallicRoughnessMaps;
     alphaModes := alphaModes;
     bbox := worldSize lib model;
     normals := analyzeNormals model;
     skinning :=
       if 0 <? totalVertices
       then Some {| totalVertices := of_Z totalVertices;
                    badWeightVertices := of_Z badWeightVertices |}
       else None;
     fileSizeBytes := fileSizeBytes |}.

(** [analyzeModel] throws when [getWorldBoundingBox] does, after the
    traversal, which has no effect outside the call; [analyzeModel] above is
    what it returns otherwise. *)
Definition analyzeModelThrows (lib : Library) (model : Object3D) : bool :=
  boundingBoxThrows lib model.

End GltfUtils.


(** ** [src/state/useStore.ts] *)

Module Store.

(** A [File], as far as the application reads it. *)
Record File : Type := { file_name : string; file_size : number }.

Inductive MaterialView : Type := view_none | view_baseColor | view_emission | view_alpha.

Record AppState : Type := {
  file : option File;
  model : option GltfUtils.Object3D;
  modelStats : option ModelStats;
  isLoading : bool;
  error : option string;
  targetSlot : option Slot;
  hiddenSlots : list Slot;
  handHidesBase : bool;
  isDarkMode : bool;
  showWireframe : bool;
  materialView : MaterialView;
  showResults : bool;
  validationReport : option ValidationReport
}.

Definition initialState : AppState :=
  {| file := None;
     model := None;
     modelStats := None;
     isLoading := false;
     error := None;
     targetSlot := None;
     hiddenSlots := [];
     handHidesBase := false;
     isDarkMode := false;
     showWireframe := false;
     materialView := view_none;
     showResults := false;
     validationReport := None |}.

Definition setFile (file' : option File) (state : AppState) : AppState :=
  {| file := file';
     model := model state;
     modelStats := modelStats state;
     isLoading := isLoading state;
     error := error state;
     targetSlot := targetSlot state;
     hiddenSlots := hiddenSlots state;
     handHidesBase := handHidesBase state;
     isDarkMode := isDarkMode state;
     showWireframe := showWireframe state;
     materialView := materialView state;
     showResults := showResults state;
     validationReport := validationReport state |}.

Definition setModel (model' : option GltfUtils.Object3D) (state : AppState) : AppState :=
  {| file := file state;
     model := model';
     modelStats := modelStats state;
     isLoading := isLoading state;
     error := error state;
     targetSlot := targetSlot state;
     hiddenSlots := hiddenSlots state;
     handHidesBase := handHidesBase state;
     isDarkMode := isDarkMode state;
     showWireframe := showWireframe state;
     materialView := materialView state;
     showResults := showResults state;
     validationReport := validationReport state |}.

Definition setModelStats (stats : option ModelStats) (state : AppState) : AppState :=
  {| file := file state;
     model := model state;
     modelStats := stats;
     isLoading := isLoading state;
     error := error state;
     targetSlot := targetSlot state;
     hiddenSlots := hiddenSlots state;
     handHidesBase := handHidesBase state;
     isDarkMode := isDarkMode state;
     showWireframe := showWireframe state;
     materialView := materialView state;
     showResults := showResults state;
     validationReport := validationReport state |}.

Definition setLoading (loading : bool) (state : AppState) : AppState :=
  {| file := file state;
     model := model state;
     modelStats := modelStats state;
     isLoading := loading;
     error := error state;
     targetSlot := targetSlot state;
     hiddenSlots := hiddenSlots state;
     handHidesBase := handHidesBase state;
     isDarkMode := isDarkMode state;
     showWireframe := showWireframe state;
     materialView := materialView state;
     showResults := showResults state;
     validationReport := validationReport state |}.

Definition setError (err : option string) (state : AppState) : AppState :=
  {| file := file state;
     model := model state;
     modelStats := modelStats state;
     isLoading := isLoading state;
     error := err;
     targetSlot := targetSlot state;
     hiddenSlots := hiddenSlots state;
     handHidesBase := handHidesBase state;
     isDarkMode := isDarkMode state;
     showWireframe := showWireframe state;
     materialView := materialView state;
     showResults := showResults state;
     validationReport := validationReport state |}.

(** Sets the target, then drops it from the hidden slots; with no slot
    ([null], or the empty string of the unselected option, which every later
    test treats like [null]) the hidden slots stay. *)
Definition setTargetSlot (slot : option Slot) (state : AppState) : AppState :=
  let currentHiddenSlots := hiddenSlots state in
  let newHiddenSlots :=
    match slot with
    | Some s => filter (fun s' => negb (Slot_eqb s' s)) currentHiddenSlots
    | None => currentHiddenSlots
    end in
  {| file := file state;
     model := model state;
     modelStats := modelStats state;
     isLoading := isLoading state;
     error := error state;
     targetSlot := slot;
     hiddenSlots := newHiddenSlots;
     handHidesBase := handHidesBase state;
     isDarkMode := isDarkMode state;
     showWireframe := showWireframe state;
     materialView := materialView state;
     showResults := showResults state;
     validationReport := validationReport state |}.

Definition setHiddenSlots (slots : list Slot) (state : AppState) : AppState :=
  {| file := file state;
     model := model state;
     modelStats := modelStats state;
     isLoading := isLoading state;
     error := error state;
     targetSlot := targetSlot state;
     hiddenSlots := slots;
     handHidesBase := handHidesBase state;
     isDarkMode := isDarkMode state;
     showWireframe := showWireframe state;
     materialView := materialView state;
     showResults := showResults state;
     validationReport := validationReport state |}.

Definition setHandHidesBase (hides : bool) (state : AppState) : AppState :=
  {| file := file state;
     model := model state;
     modelStats := modelStats state;
     isLoading := isLoading state;
     error := error state;
     targetSlot := targetSlot state;
     hiddenSlots := hiddenSlots state;
     handHidesBase := hides;
     isDarkMode := isDarkMode state;
     showWireframe := showWireframe state;
     materialView := materialView state;
     showResults := showResults state;
     validationReport := validationReport state |}.

Definition toggleDarkMode (state : AppState) : AppState :=
  {| file := file state;
     model := model state;
     modelStats := modelStats state;
     isLoading := isLoading state;
     error := error state;
     targetSlot := targetSlot state;
     hiddenSlots := hiddenSlots state;
     handHidesBase := handHidesBase state;
     isDarkMode := negb (isDarkMode state);
     showWireframe := showWireframe state;
     materialView := materialView state;
     showResults := showResults state;
     validationReport := validationReport state |}.

Definition setShowWireframe (show : bool) (state : AppState) : AppState :=
  {| file := file state;
     model := model state;
     modelStats := modelStats state;
     isLoading := isLoading state;
     error := error state;
     targetSlot := targetSlot state;
     hiddenSlots := hiddenSlots state;
     handHidesBase := handHidesBase state;
     isDarkMode := isDarkMode state;
     showWireframe := show;
     materialView := materialView state;
     showResults := showResults state;
     validationReport := validationReport state |}.

Definition setMaterialView (view : MaterialView) (state : AppState) : AppState :=
  {| file := file state;
     model := model state;
     modelStats := modelStats state;
     isLoading := isLoading state;
     error := error state;
     targetSlot := targetSlot state;
     hiddenSlots := hiddenSlots state;
     handHidesBase := handHidesBase state;
     isDarkMode := isDarkMode state;
     showWireframe := showWireframe state;
     materialView := view;
     showResults := showResults state;
     validationReport := validationReport state |}.

Definition setShowResults (show : bool) (state : AppState) : AppState :=
  {| file := file state;
     model := model state;
     modelStats := modelStats state;
     isLoading := isLoading state;
     error := error state;
     targetSlot := targetSlot state;
     hiddenSlots := hiddenSlots state;
     handHidesBase := handHidesBase state;
     isDarkMode := isDarkMode state;
     showWireframe := showWireframe state;
     materialView := materialView state;
     showResults := show;
     validationReport := validationReport state |}.

Definition setValidationReport (report : option ValidationReport) (state : AppState) : AppState :=
  {| file := file state;
     model := model state;
     modelStats := modelStats state;
     isLoading := isLoading state;
     error := error state;
     targetSlot := targetSlot state;
     hiddenSlots := hiddenSlots state;
     handHidesBase := handHidesBase state;
     isDarkMode := isDarkMode state;
     showWireframe := showWireframe state;
     materialView := materialView state;
     showResults := showResults state;
     validationReport := report |}.

Definition reset (_state : AppState) : AppState := initialState.

End Store.

(** ** [src/components/ControlsPanel.tsx] and [src/components/BudgetCard.tsx] *)

Module ControlsPanel.

(** The selection the panel and the budget card build from the store. *)
Definition userSelection (target : Slot) (state : Store.AppState) : UserSelection :=
  {| targetSlot := target;
     hiddenSlots := Store.hiddenSlots state;
     handHidesBase := Some (Store.handHidesBase state) |}.

Definition handleTargetSlotChange (slot : option Slot) (state : Store.AppState)
    : Store.AppState :=
  let state1 := Store.setTargetSlot slot state in
  match slot with
  | Some s =>
      if Slot_eqb s skin
      then Store.setHiddenSlots Budgets.getSkinRequiredHiddenSlots state1
      else state1
  | None => state1
  end.

Definition handleHiddenSlotToggle (slot : Slot) (state : Store.AppState)
    : Store.AppState :=
  let targetIsSkin :=
    match Store.targetSlot state with
    | Some t => Slot_eqb t skin
    | None => false
    end in
  if targetIsSkin && Budgets.includes (Store.hiddenSlots state) slot
  then state
  else
    let newHiddenSlots :=
      if Budgets.includes (Store.hiddenSlots state) slot
      then filter (fun s => negb (Slot_eqb s slot)) (Store.hiddenSlots state)
      else Store.hiddenSlots state ++ [slot] in
    Store.setHiddenSlots newHiddenSlots state.

(** [file?.name || 'model.glb'] *)
Definition reportFileName (file : option Store.File) : string :=
  match file with
  | Some f => if String.eqb (Store.file_name f) EmptyString
              then "model.glb"%string else Store.file_name f
  | None => "model.glb"%string
  end.

(** The analysis of the loaded model for the current selection, taken as one
    step (the dynamic imports it awaits are not modelled).  When
    [analyzeModel] throws, the handler's promise is rejected before
    [setValidationReport] is reached and the store stays as it is. *)
Definition handleAnalyze (lib : GltfUtils.Library) (state : Store.AppState)
    : Store.AppState :=
  match Store.model state, Store.targetSlot state with
  | Some model, Some target =>
      let fileSizeBytes :=
        match Store.file state with
        | Some f => Store.file_size f
        | None => of_Z 0
        end in
      if GltfUtils.analyzeModelThrows lib model then state
      else
        let modelStats := GltfUtils.analyzeModel lib model fileSizeBytes in
        let report :=
          Validation.runValidation modelStats (userSelection target state)
            (reportFileName (Store.file state)) in
        Store.setValidationReport (Some report) state
  | _, _ => state
  end.

(** The triangle budget the budget card shows; nothing without a target. *)
Definition budgetCard (state : Store.AppState) : option Z :=
  match Store.targetSlot state with
  | Some target => Some (Budgets.computeTriangleBudget (userSelection target state))
  | None => None
  end.

End ControlsPanel.

(** * Properties *)

(** ** Vocabulary of the statements *)

(** The fifteen slots. *)
Definition all_slots : list Slot :=
  [hat; helmet; upper_body; lower_body; feet; hair; mask; eyewear;
   earring; tiara; top_head; facial_hair; hands; skin; head].

Definition sum_Z (l : list Z) : Z := fold_right Z.add 0 l.

(** How many times a slot occurs in a list. *)
Definition occurrences (s : Slot) (l : list Slot) : Z :=
  Z.of_nat (count_occ Slot_eq_dec l s).

(** The additive budget of a selection, every occurrence counted. *)
Definition additive_budget (sel : UserSelection) : Z :=
  Budgets.BASE_TRI_BUDGET (targetSlot sel)
  + sum_Z (map Budgets.BASE_TRI_BUDGET (hiddenSlots sel)).

(** The helmet override condition: a helmet hiding the whole head-hide set. *)
Definition helmet_override (sel : UserSelection) : Prop :=
  targetSlot sel = helmet
  /\ forall s, In s Budgets.HELMET_HIDE_SET -> In s (hiddenSlots sel).

(** [results.find(r => r.id === i)] *)
Definition rule_by_id (i : string) (l : list RuleResult) : option RuleResult :=
  find (fun r => String.eqb (id r) i) l.

(** The ids of the rule battery, with and without the skin-weights rule. *)
Definition battery_ids (with_skin_weights : bool) : list string :=
  app ["triangles"; "materials"; "textures"; "texture-sizes"; "texture-square";
       "normal-maps"; "metallic-roughness-maps"]%string
      (app (if with_skin_weights then ["skin-weights"%string] else [])
           ["dimensions"; "file-integrity"; "file-size"]%string).

(** Whether the statistics carry skinning data ([if (modelStats.skinning)]). *)
Definition has_skinning (stats : ModelStats) : bool :=
  match skinning stats with Some _ => true | None => false end.

(** The statistics and the selection of the test suite
    ([createMockModelStats], [createMockUserSelection]), with the overrides
    the tests apply. *)
Definition createMockModelStats (triangles : Z) (sk : option Skinning)
    (bytes : Z) : ModelStats :=
  {| triangleCount := of_Z triangles;
     materialCountExclAvatarSkin := of_Z 2;
     textures :=
       [ {| tex_name := "baseColor"; tex_width := of_Z 512; tex_height := of_Z 512 |};
         {| tex_name := "emission"; tex_width := of_Z 256; tex_height := of_Z 256 |} ];
     usedTextureCount := of_Z 2;
     hasNormalMaps := false;
     hasMetallicRoughnessMaps := false;
     alphaModes := [OPAQUE; MASK];
     bbox := {| width := of_Z 1; height := of_Z 2; depth := decimal 5 1 |};
     normals := {| invertedVertexRatio := decimal 5 3;
                   invertedFaceRatio := decimal 1 2 |};
     skinning := sk;
     fileSizeBytes := of_Z bytes |}.

Definition createMockUserSelection : UserSelection :=
  {| targetSlot := hat; hiddenSlots := []; handHidesBase := Some false |}.

(** The defects the rule engine looks for, in the order of its rules. *)
Definition skin_ratio (sk : Skinning) : number :=
  div (badWeightVertices sk) (totalVertices sk).

Definition fileSizeMB (stats : ModelStats) : number :=
  div (fileSizeBytes stats) (mul (of_Z 1024) (of_Z 1024)).

Definition oversized (t : Texture) : bool :=
  gt (tex_width t) (of_Z 1024) || gt (tex_height t) (of_Z 1024).

Definition non_square (t : Texture) : bool :=
  strict_neq (tex_width t) (tex_height t).

Definition exceeds_dimensions (b : BBox) : bool :=
  gt (width b) (decimal 242 2) || gt (height b) (decimal 242 2)
  || gt (depth b) (decimal 14 1).

(** A defect that makes some rule FAIL. *)
Definition blocking_defect (stats : ModelStats) (sel : UserSelection) : bool :=
  negb (le (triangleCount stats) (of_Z (Budgets.computeTriangleBudget sel)))
  || negb (le (materialCountExclAvatarSkin stats)
              (of_Z (maxMaterials (Budgets.getBudgetConfig (targetSlot sel)))))
  || negb (le (usedTextureCount stats)
              (of_Z (maxTextures (Budgets.getBudgetConfig (targetSlot sel)))))
  || existsb oversized (textures stats)
  || match skinning stats with
     | Some sk => gt (skin_ratio sk) (decimal 3 2)
     | None => false
     end
  || exceeds_dimensions (bbox stats)
  || strict_eq (triangleCount stats) (of_Z 0)
  || strict_eq (materialCountExclAvatarSkin stats) (of_Z 0)
  || gt (fileSizeMB stats) (of_Z 3).

(** A defect that makes some rule WARN when nothing fails it. *)
Definition advisory_defect (stats : ModelStats) : bool :=
  existsb non_square (textures stats)
  || hasNormalMaps stats
  || hasMetallicRoughnessMaps stats
  || match skinning stats with
     | Some sk => gt (skin_ratio sk) (decimal 5 3)
     | None => false
     end
  || gt (fileSizeMB stats) (of_Z 1).

(** The rules that only ever pass or fail, and those that only ever pass or
    warn. *)
Definition blocking_ids : list string :=
  ["triangles"; "materials"; "textures"; "texture-sizes"; "dimensions";
   "file-integrity"]%string.

Definition advisory_ids : list string :=
  ["texture-square"; "normal-maps"; "metallic-roughness-maps"]%string.

(** What a user can do in the application, and when the interface offers
    it: the target is chosen among the options of the select (or unset), a
    hidden slot is toggled through one of the check boxes, which exist for
    the slots of [getAvailableHiddenSlots] only, and the hand option exists
    for the hands only; loading a file and the display settings go through
    the remaining actions of the store. *)
Inductive Action : Type :=
  | ChooseTarget (slot : option Slot)
  | ToggleHidden (slot : Slot)
  | CheckHandHidesBase (hides : bool)
  | Analyze
  | SetFile (f : option Store.File)
  | SetModel (m : option GltfUtils.Object3D)
  | SetModelStats (stats : option ModelStats)
  | SetLoading (loading : bool)
  | SetError (err : option string)
  | ToggleDarkMode
  | SetShowWireframe (show : bool)
  | SetMaterialView (view : Store.MaterialView)
  | SetShowResults (show : bool)
  | Reset.

Definition offered (a : Action) (state : Store.AppState) : Prop :=
  match a with
  | ChooseTarget None => True
  | ChooseTarget (Some s) => In s Budgets.getAvailableTargetSlots
  | ToggleHidden s => In s (Budgets.getAvailableHiddenSlots (Store.targetSlot state))
  | CheckHandHidesBase _ => Store.targetSlot state = Some hands
  | _ => True
  end.

Definition perform (lib : GltfUtils.Library) (a : Action) (state : Store.AppState)
    : Store.AppState :=
  match a with
  | ChooseTarget slot => ControlsPanel.handleTargetSlotChange slot state
  | ToggleHidden s => ControlsPanel.handleHiddenSlotToggle s state
  | CheckHandHidesBase hides => Store.setHandHidesBase hides state
  | Analyze => ControlsPanel.handleAnalyze lib state
  | SetFile f => Store.setFile f state
  | SetModel m => Store.setModel m state
  | SetModelStats stats => Store.setModelStats stats state
  | SetLoading loading => Store.setLoading loading state
  | SetError err => Store.setError err state
  | ToggleDarkMode => Store.toggleDarkMode state
  | SetShowWireframe show => Store.setShowWireframe show state
  | SetMaterialView view => Store.setMaterialView view state
  | SetShowResults show => Store.setShowResults show state
  | Reset => Store.reset state
  end.

(** The states the application can be in. *)
Inductive reachable (lib : GltfUtils.Library) : Store.AppState -> Prop :=
  | reachable_initial : reachable lib Store.initialState
  | reachable_step (state : Store.AppState) (a : Action) :
      reachable lib state -> offered a state -> reachable lib (perform lib a state).

(** What every reachable selection satisfies. *)
Definition selection_ok (state : Store.AppState) : Prop :=
  NoDup (Store.hiddenSlots state)
  /\ (forall s, In s (Store.hiddenSlots state) -> In s Budgets.getAvailableTargetSlots)
  /\ (forall t, Store.targetSlot state = Some t ->
        In t Budgets.getAvailableTargetSlots /\ ~ In t (Store.hiddenSlots state))
  /\ (Store.targetSlot state = Some skin ->
      Store.hiddenSlots state = Budgets.getSkinRequiredHiddenSlots).

(** A library for the examples: a unit cube, no bounding box for a skinned
    mesh without skeleton, and numbers printed alike. *)
Definition example_library : GltfUtils.Library :=
  {| GltfUtils.worldSize :=
       fun _ => {| width := of_Z 1; height := of_Z 1; depth := of_Z 1 |};
     GltfUtils.boundingBoxThrows :=
       fun o =>
         existsb (fun mesh =>
                    match GltfUtils.kind mesh with
                    | GltfUtils.SkinnedMesh None => true
                    | _ => false
                    end)
                 (GltfUtils.traverseMeshes o);
     GltfUtils.numberToString := fun _ => "0"%string |}.

(** The texture entries of the statistics that count as normal maps and as
    metallic or roughness maps, and the entry the loop of
    [extractTextureInfo] pushes for one texture type, if any. *)
Definition is_normal (t : Texture) : bool := String.eqb (tex_name t) "normal".

Definition is_metallic_roughness (t : Texture) : bool :=
  String.eqb (tex_name t) "metallic" || String.eqb (tex_name t) "roughness".

Definition pushed (mat : GltfUtils.Material)
    (ty : (GltfUtils.Material -> option GltfUtils.ThreeTexture) * string)
    : list Texture :=
  match GltfUtils.texture_image (fst ty mat) with
  | Some img => [ {| tex_name := snd ty;
                     tex_width := GltfUtils.image_width img;
                     tex_height := GltfUtils.image_height img |} ]
  | None => []
  end.

(** Example states: a helmet that hides the hat, and the skin. *)
Definition example_state : Store.AppState :=
  perform example_library (ToggleHidden hat)
    (perform example_library (ChooseTarget (Some helmet)) Store.initialState).

Definition example_skin_state : Store.AppState :=
  perform example_library (ChooseTarget (Some skin)) Store.initialState.

(** An example model: one mesh of six indexed vertices that wears the avatar
    skin material. *)
Definition example_avatar_model : GltfUtils.Object3D :=
  GltfUtils.Object3D_node
    (Some {| GltfUtils.kind := GltfUtils.PlainMesh;
             GltfUtils.geometry :=
               {| GltfUtils.index := Some (of_Z 6);
                  GltfUtils.position := Some (of_Z 4);
                  GltfUtils.skinIndex := None;
                  GltfUtils.skinWeight := None |};
             GltfUtils.material :=
               inl {| GltfUtils.uuid := "m0";
                      GltfUtils.name := "AvatarSkin_MAT";
                      GltfUtils.transparent := false;
                      GltfUtils.alphaTest := of_Z 0;
                      GltfUtils.isMeshStandardMaterial := true;
                      GltfUtils.map_ := None;
                      GltfUtils.emissiveMap := None;
                      GltfUtils.normalMap := None;
                      GltfUtils.metalnessMap := None;
                      GltfUtils.roughnessMap := None;
                      GltfUtils.aoMap := None;
                      GltfUtils.displacementMap := None |} |})
    [].




(** ** The triangle-budget resolver *)

Section BudgetFacts.

Import Budgets.

Lemma Slot_eqb_eq (a b : Slot) : Slot_eqb a b = true <-> a = b.
Proof.
  unfold Slot_eqb. destruct (Slot_eq_dec a b); split; congruence.
Qed.

Lemma Slot_eqb_refl (a : Slot) : Slot_eqb a a = true.
Proof. apply Slot_eqb_eq. reflexivity. Qed.

Lemma Slot_eqb_neq (a b : Slot) : a <> b -> Slot_eqb a b = false.
Proof.
  intros H. unfold Slot_eqb. destruct (Slot_eq_dec a b); congruence.
Qed.

Lemma includes_In (l : list Slot) (s : Slot) : includes l s = true <-> In s l.
Proof.
  unfold includes. rewrite existsb_exists. split.
  - intros (x & Hx & Heq). apply Slot_eqb_eq in Heq. subst. assumption.
  - intros H. exists s. split; [assumption | apply Slot_eqb_refl].
Qed.

Lemma all_head_hidden_iff (l : list Slot) :
  forallb (fun slot => includes l slot) HELMET_HIDE_SET = true
  <-> forall s, In s HELMET_HIDE_SET -> In s l.
Proof.
  rewrite forallb_forall. split; intros H s Hs.
  - apply includes_In. apply H. assumption.
  - apply includes_In. apply H. assumption.
Qed.

Lemma isHelmetSpecialRule_iff (sel : UserSelection) :
  isHelmetSpecialRule sel = true <-> helmet_override sel.
Proof.
  unfold isHelmetSpecialRule, helmet_override.
  rewrite andb_true_iff, Slot_eqb_eq, all_head_hidden_iff. reflexivity.
Qed.

Lemma or_zero_base (s : Slot) : or_zero (BASE_TRI_BUDGET s) = BASE_TRI_BUDGET s.
Proof. destruct s; reflexivity. Qed.

Lemma fold_hidden_acc (l : list Slot) (acc : Z) :
  fold_left (fun sum slot => sum + or_zero (BASE_TRI_BUDGET slot)) l acc
  = acc + sum_Z (map BASE_TRI_BUDGET l).
Proof.
  revert acc. induction l as [ | s l IH]; intros acc; cbn [fold_left map sum_Z fold_right].
  - lia.
  - rewrite IH, or_zero_base. unfold sum_Z. lia.
Qed.

Lemma sumHidden_sum (l : list Slot) : sumHidden l = sum_Z (map BASE_TRI_BUDGET l).
Proof. unfold sumHidden. rewrite fold_hidden_acc. lia. Qed.

Lemma occurrences_cons (a s : Slot) (l : list Slot) :
  occurrences s (a :: l) = (if Slot_eqb a s then 1 else 0) + occurrences s l.
Proof.
  unfold occurrences, Slot_eqb. cbn [count_occ].
  destruct (Slot_eq_dec a s); lia.
Qed.

Lemma sum_by_occurrences (l : list Slot) :
  sum_Z (map BASE_TRI_BUDGET l)
  = sum_Z (map (fun s => occurrences s l * BASE_TRI_BUDGET s) all_slots).
Proof.
  induction l as [ | a l IH].
  - reflexivity.
  - cbn [map sum_Z fold_right]. fold (sum_Z (map BASE_TRI_BUDGET l)). rewrite IH.
    unfold all_slots. cbn [map sum_Z fold_right].
    rewrite !occurrences_cons.
    destruct a; cbn [BASE_TRI_BUDGET];
      repeat match goal with
             | |- context [Slot_eqb ?a ?b] =>
                 let v := eval vm_compute in (Slot_eqb a b) in
                 change (Slot_eqb a b) with v
             end;
      cbv iota; lia.
Qed.

(** The resolver below its two fixed cases. *)
Lemma computeTriangleBudget_general (sel : UserSelection) :
  targetSlot sel <> skin ->
  ~ (targetSlot sel = hands /\ handHidesBase sel = Some true) ->
  computeTriangleBudget sel
  = if isHelmetSpecialRule sel then 4000 else additive_budget sel.
Proof.
  intros Hskin Hhands.
  unfold computeTriangleBudget, isHelmetSpecialRule, additive_budget.
  rewrite (Slot_eqb_neq _ _ Hskin).
  assert (Hh : Slot_eqb (targetSlot sel) hands && truthy (handHidesBase sel) = false).
  { apply andb_false_iff.
    destruct (Slot_eq_dec (targetSlot sel) hands) as [Heq | Hne].
    - right. destruct (handHidesBase sel) as [[ | ] | ]; try reflexivity.
      exfalso. apply Hhands. split; [assumption | reflexivity].
    - left. apply Slot_eqb_neq. assumption. }
  rewrite Hh, sumHidden_sum.
  destruct (Slot_eqb (targetSlot sel) helmet); cbn [andb]; [ | reflexivity].
  destruct (forallb _ HELMET_HIDE_SET); reflexivity.
Qed.

Lemma BASE_TRI_BUDGET_range (s : Slot) : 500 <= BASE_TRI_BUDGET s <= 5000.
Proof. destruct s; cbn; lia. Qed.

Lemma sum_base_range (l : list Slot) :
  0 <= sum_Z (map BASE_TRI_BUDGET l) <= 5000 * Z.of_nat (List.length l).
Proof.
  induction l as [ | s l IH]; cbn [map sum_Z fold_right List.length].
  - lia.
  - fold (sum_Z (map BASE_TRI_BUDGET l)).
    pose proof (BASE_TRI_BUDGET_range s). lia.
Qed.

(** Every budget is an integer that binary64 holds exactly: a JavaScript
    array has fewer than 2^32 elements. *)
Lemma computeTriangleBudget_range (sel : UserSelection) :
  500 <= computeTriangleBudget sel
      <= 5000 + 5000 * Z.of_nat (List.length (hiddenSlots sel)).
Proof.
  unfold computeTriangleBudget. rewrite sumHidden_sum.
  pose proof (sum_base_range (hiddenSlots sel)).
  pose proof (BASE_TRI_BUDGET_range (targetSlot sel)).
  destruct (Slot_eqb (targetSlot sel) skin); [lia | ].
  destruct (Slot_eqb (targetSlot sel) hands && truthy (handHidesBase sel)); [lia | ].
  destruct (Slot_eqb (targetSlot sel) helmet); [ | lia].
  destruct (forallb _ HELMET_HIDE_SET); lia.
Qed.

Lemma computeTriangleBudget_exact (sel : UserSelection) :
  Z.of_nat (List.length (hiddenSlots sel)) < 2 ^ 32 ->
  0 <= computeTriangleBudget sel < 2 ^ 53.
Proof.
  intros Hlen. pose proof (computeTriangleBudget_range sel).
  change (2 ^ 32) with 4294967296 in Hlen.
  change (2 ^ 53) with 9007199254740992. lia.
Qed.

End BudgetFacts.

Section BudgetClaims.

Import Budgets.

(** C1.  For a selection whose target is the helmet: when the hidden slots
    contain every slot of the head-hide set (in any order, whatever else or
    however often the list holds a slot), the budget is exactly 4000, the
    additive sum being replaced; when some slot of the head-hide set is not
    hidden, the budget is the plain additive sum. *)
Theorem helmet_override_replaces_sum (sel : UserSelection) :
  targetSlot sel = helmet ->
  ((forall s, In s HELMET_HIDE_SET -> In s (hiddenSlots sel)) ->
   computeTriangleBudget sel = 4000)
  /\ ((exists s, In s HELMET_HIDE_SET /\ ~ In s (hiddenSlots sel)) ->
      computeTriangleBudget sel = additive_budget sel).
Proof.
  intros Htarget.
  assert (Hgen : computeTriangleBudget sel
                 = if isHelmetSpecialRule sel then 4000 else additive_budget sel).
  { apply computeTriangleBudget_general.
    - rewrite Htarget. discriminate.
    - rewrite Htarget. intros [H _]. discriminate. }
  split.
  - intros Hall. rewrite Hgen.
    replace (isHelmetSpecialRule sel) with true; [reflexivity | ].
    symmetry. apply isHelmetSpecialRule_iff. split; assumption.
  - intros (s & Hs & Hnot). rewrite Hgen.
    destruct (isHelmetSpecialRule sel) eqn:Hrule; [ | reflexivity].
    apply isHelmetSpecialRule_iff in Hrule. destruct Hrule as [_ Hall].
    exfalso. apply Hnot, Hall, Hs.
Qed.

Lemma helmet_override_replaces_sum_witness :
  computeTriangleBudget
    {| targetSlot := helmet;
       hiddenSlots := [head; earring; eyewear; tiara; hat; facial_hair; hair; top_head];
       handHidesBase := Some false |} = 4000
  /\ computeTriangleBudget
       {| targetSlot := helmet;
          hiddenSlots := [head; earring; eyewear];
          handHidesBase := Some false |} = 1500 + 500 + 500 + 500.
Proof.
  split.
  - apply (proj1 (helmet_override_replaces_sum
                    {| targetSlot := helmet;
                       hiddenSlots := [head; earring; eyewear; tiara; hat;
                                       facial_hair; hair; top_head];
                       handHidesBase := Some false |} eq_refl)).
    intros s Hs. exact Hs.
  - rewrite (proj2 (helmet_override_replaces_sum
                      {| targetSlot := helmet;
                         hiddenSlots := [head; earring; eyewear];
                         handHidesBase := Some false |} eq_refl)).
    + reflexivity.
    + exists tiara. split.
      * simpl. tauto.
      * simpl. intros [H | [H | [H | H]]]; try discriminate; exact H.
Defined.

(** C2.  With the skin as target the budget is exactly 5000, whatever the
    hidden slots and whatever [handHidesBase] (true, false or absent): the
    hidden slots contribute nothing. *)
Theorem skin_budget_fixed (sel : UserSelection) :
  targetSlot sel = skin ->
  computeTriangleBudget sel = 5000
  /\ computeTriangleBudget sel
     = computeTriangleBudget
         {| targetSlot := skin; hiddenSlots := []; handHidesBase := None |}.
Proof.
  intros Htarget. unfold computeTriangleBudget. rewrite Htarget.
  split; reflexivity.
Qed.

Lemma skin_budget_fixed_witness :
  computeTriangleBudget
    {| targetSlot := skin; hiddenSlots := [hat; mask];
       handHidesBase := Some false |} = 5000
  /\ computeTriangleBudget
       {| targetSlot := skin; hiddenSlots := [hat; helmet; upper_body; lower_body];
          handHidesBase := None |} = 5000.
Proof.
  split.
  - apply (skin_budget_fixed
             {| targetSlot := skin; hiddenSlots := [hat; mask];
                handHidesBase := Some false |} eq_refl).
  - apply (skin_budget_fixed
             {| targetSlot := skin;
                hiddenSlots := [hat; helmet; upper_body; lower_body];
                handHidesBase := None |} eq_refl).
Defined.

(** C3.  When the target is not the skin, is not the hands with
    [handHidesBase] set, and the helmet override condition does not hold, the
    budget is the base budget of the target plus the base budget of every
    element of the hidden list; the list is not deduplicated: a slot
    contributes its base budget once per occurrence. *)
Theorem additive_budget_counts_every_occurrence (sel : UserSelection) :
  targetSlot sel <> skin ->
  ~ (targetSlot sel = hands /\ handHidesBase sel = Some true) ->
  ~ helmet_override sel ->
  computeTriangleBudget sel
  = BASE_TRI_BUDGET (targetSlot sel)
    + sum_Z (map BASE_TRI_BUDGET (hiddenSlots sel))
  /\ computeTriangleBudget sel
     = BASE_TRI_BUDGET (targetSlot sel)
       + sum_Z (map (fun s => occurrences s (hiddenSlots sel) * BASE_TRI_BUDGET s)
                    all_slots).
Proof.
  intros Hskin Hhands Hover.
  assert (Hadd : computeTriangleBudget sel = additive_budget sel).
  { rewrite computeTriangleBudget_general by assumption.
    destruct (isHelmetSpecialRule sel) eqn:Hrule; [ | reflexivity].
    exfalso. apply Hover, isHelmetSpecialRule_iff, Hrule. }
  split.
  - exact Hadd.
  - rewrite Hadd. unfold additive_budget. rewrite sum_by_occurrences. reflexivity.
Qed.

Lemma additive_budget_counts_every_occurrence_witness :
  occurrences feet [feet; mask; feet] = 2
  /\ computeTriangleBudget
       {| targetSlot := upper_body;
          hiddenSlots := [feet; mask; feet];
          handHidesBase := Some false |} = 1500 + (1500 + 500 + 1500).
Proof.
  split.
  - reflexivity.
  - refine (proj1 (additive_budget_counts_every_occurrence
                     {| targetSlot := upper_body;
                        hiddenSlots := [feet; mask; feet];
                        handHidesBase := Some false |} _ _ _)).
    + simpl. discriminate.
    + simpl. intros [H _]. discriminate.
    + unfold helmet_override. simpl. intros [H _]. discriminate.
Defined.

(** C4.  With the hands as target and [handHidesBase] true the budget is
    exactly 1500 whatever the hidden slots, which are not summed; without
    [handHidesBase] the hands resolve to their plain base budget of 1000
    plus the hidden slots. *)
Theorem hands_hide_base_budget (sel : UserSelection) :
  targetSlot sel = hands ->
  (handHidesBase sel = Some true -> computeTriangleBudget sel = 1500)
  /\ (handHidesBase sel <> Some true ->
      computeTriangleBudget sel
      = 1000 + sum_Z (map BASE_TRI_BUDGET (hiddenSlots sel)))
  /\ BASE_TRI_BUDGET hands = 1000.
Proof.
  intros Htarget. split; [ | split; [ | reflexivity]].
  - intros Hhides. unfold computeTriangleBudget. rewrite Htarget, Hhides.
    reflexivity.
  - intros Hhides.
    rewrite computeTriangleBudget_general.
    + unfold isHelmetSpecialRule, additive_budget. rewrite Htarget. reflexivity.
    + rewrite Htarget. discriminate.
    + intros [_ H]. contradiction.
Qed.

Lemma hands_hide_base_budget_witness :
  computeTriangleBudget
    {| targetSlot := hands; hiddenSlots := [upper_body; feet];
       handHidesBase := Some true |} = 1500
  /\ computeTriangleBudget
       {| targetSlot := hands; hiddenSlots := []; handHidesBase := Some false |} = 1000.
Proof.
  split.
  - apply (proj1 (hands_hide_base_budget
                    {| targetSlot := hands; hiddenSlots := [upper_body; feet];
                       handHidesBase := Some true |} eq_refl)).
    reflexivity.
  - apply (proj1 (proj2 (hands_hide_base_budget
                           {| targetSlot := hands; hiddenSlots := [];
                              handHidesBase := Some false |} eq_refl))).
    simpl. discriminate.
Defined.

(** C10.  The budget is not monotone in the hidden slots: a helmet hiding
    seven of the eight head-hide slots together with [upper_body],
    [lower_body] and [feet] has an additive budget above 4000, and appending
    the missing head-hide slot lowers the budget to 4000. *)
Theorem budget_not_monotone :
  exists (hidden : list Slot) (s : Slot),
    hidden = [head; earring; eyewear; tiara; hat; facial_hair; hair;
              upper_body; lower_body; feet]
    /\ s = top_head
    /\ computeTriangleBudget
         {| targetSlot := helmet; hiddenSlots := hidden;
            handHidesBase := Some false |} = 11500
    /\ computeTriangleBudget
         {| targetSlot := helmet; hiddenSlots := hidden ++ [s];
            handHidesBase := Some false |} = 4000
    /\ computeTriangleBudget
         {| targetSlot := helmet; hiddenSlots := hidden ++ [s];
            handHidesBase := Some false |}
       < computeTriangleBudget
           {| targetSlot := helmet; hiddenSlots := hidden;
              handHidesBase := Some false |}.
Proof.
  exists [head; earring; eyewear; tiara; hat; facial_hair; hair;
          upper_body; lower_body; feet], top_head.
  repeat split.
Qed.

End BudgetClaims.

(** ** Binary64 numbers *)

Section NumberFacts.

Lemma digits2_bounds (p : positive) :
  2 ^ (Zpos (digits2_pos p) - 1) <= Zpos p < 2 ^ Zpos (digits2_pos p).
Proof.
  induction p as [p IH | p IH | ]; cbn [digits2_pos].
  - rewrite Pos2Z.inj_succ, Z.pow_succ_r by lia.
    replace (Z.succ (Zpos (digits2_pos p)) - 1) with (Z.succ (Zpos (digits2_pos p) - 1)) by lia.
    rewrite Z.pow_succ_r by lia. lia.
  - rewrite Pos2Z.inj_succ, Z.pow_succ_r by lia.
    replace (Z.succ (Zpos (digits2_pos p)) - 1) with (Z.succ (Zpos (digits2_pos p) - 1)) by lia.
    rewrite Z.pow_succ_r by lia. lia.
  - cbn. lia.
Qed.

Lemma digits2_iter_xO (k p : positive) :
  digits2_pos (Pos.iter xO p k) = (digits2_pos p + k)%positive.
Proof.
  induction k as [ | k IH] using Pos.peano_ind.
  - cbn. lia.
  - rewrite Pos.iter_succ. cbn [digits2_pos]. rewrite IH. lia.
Qed.

Lemma Zpos_iter_xO (k p : positive) :
  Zpos (Pos.iter xO p k) = Zpos p * 2 ^ Zpos k.
Proof.
  change (Pos.iter xO p k) with (shift_pos k p).
  rewrite shift_pos_correct. rewrite Z.mul_comm. reflexivity.
Qed.

Lemma binary_round_aux_canonical (s : bool) (m : positive) (e : Z) :
  Zpos (digits2_pos m) = 53 -> -1074 <= e <= 971 ->
  binary_round_aux prec emax s (Zpos m) e loc_Exact = S754_finite s m e.
Proof.
  intros Hd He.
  unfold binary_round_aux, shr_fexp, fexp, emin, Zdigits2.
  rewrite Hd.
  replace (Z.max (53 + e - prec) (3 - emax - prec) - e) with 0
    by (unfold prec, emax; lia).
  cbn [shr shr_record_of_loc shr_m loc_of_shr_record round_nearest_even Zdigits2].
  rewrite Hd.
  replace (Z.max (53 + e - prec) (3 - emax - prec) - e) with 0
    by (unfold prec, emax; lia).
  cbn [shr shr_record_of_loc shr_m].
  replace (e <=? emax - prec) with true; [reflexivity|].
  symmetry. apply Z.leb_le. unfold prec, emax; lia.
Qed.


Lemma digits2_le_53 (p : positive) : Zpos p < 2 ^ 53 -> Zpos (digits2_pos p) <= 53.
Proof.
  intros Hp. destruct (digits2_bounds p) as [Hlo _].
  destruct (Z_le_gt_dec (Zpos (digits2_pos p)) 53) as [|Hgt]; [assumption|].
  exfalso.
  assert (2 ^ 53 <= 2 ^ (Zpos (digits2_pos p) - 1)) by (apply Z.pow_le_mono_r; lia).
  lia.
Qed.

Lemma fexp_binary64 (z : Z) : fexp prec emax z = Z.max (z - 53) (-1074).
Proof. reflexivity. Qed.

Lemma of_Z_pos (p : positive) :
  Zpos p < 2 ^ 53 ->
  exists m e,
    of_Z (Zpos p) = S754_finite false m e
    /\ Zpos (digits2_pos m) = 53
    /\ e = Zpos (digits2_pos p) - 53
    /\ Zpos m = Zpos p * 2 ^ (- e).
Proof.
  intros Hp. pose proof (digits2_le_53 p Hp) as Hd.
  unfold of_Z, binary_normalize, binary_round, shl_align.
  rewrite fexp_binary64.
  replace (Z.max (Zpos (digits2_pos p) + 0 - 53) (-1074))
    with (Zpos (digits2_pos p) - 53) by lia.
  change (IntDef.Z.sub (Zpos (digits2_pos p) - 53) 0)
    with ((Zpos (digits2_pos p) - 53) - 0).
  rewrite Z.sub_0_r.
  destruct (Zpos (digits2_pos p) - 53) as [ | k | k] eqn:Hk; try lia.
  - exists p, 0. rewrite binary_round_aux_canonical by lia.
    repeat split; try lia.
  - exists (Pos.iter xO p k), (Zneg k).
    change (PosDef.Pos.iter xO p k) with (Pos.iter xO p k).
    assert (Hdk : Zpos (digits2_pos (Pos.iter xO p k)) = 53)
      by (rewrite digits2_iter_xO; lia).
    rewrite binary_round_aux_canonical by lia.
    repeat split; try lia.
    rewrite Zpos_iter_xO. reflexivity.
Qed.

Lemma compare_of_Z (a b : Z) :
  0 <= a < 2 ^ 53 -> 0 <= b < 2 ^ 53 ->
  SFcompare (of_Z a) (of_Z b) = Some (a ?= b).
Proof.
  intros Ha Hb.
  destruct a as [ | p | p]; [ | | lia]; (destruct b as [ | q | q]; [ | | lia]).
  - reflexivity.
  - destruct (of_Z_pos q) as (m & e & -> & _); [lia|]. reflexivity.
  - destruct (of_Z_pos p) as (m & e & -> & _); [lia|]. reflexivity.
  - destruct (of_Z_pos p) as (m1 & e1 & -> & Hm1 & He1 & Hv1); [lia|].
    destruct (of_Z_pos q) as (m2 & e2 & -> & Hm2 & He2 & Hv2); [lia|].
    cbn [SFcompare]. f_equal.
    pose proof (digits2_bounds p) as Bp. pose proof (digits2_bounds q) as Bq.
    assert (Lp : Zpos (digits2_pos p) <= 53) by (apply digits2_le_53; lia).
    assert (Lq : Zpos (digits2_pos q) <= 53) by (apply digits2_le_53; lia).
    destruct (Z.compare_spec e1 e2) as [Heq | Hlt | Hgt].
    + change (Pos.compare_cont Eq m1 m2) with (Zpos m1 ?= Zpos m2).
      rewrite Hv1, Hv2, Heq.
      symmetry. apply Zmult_compare_compat_r. apply Z.lt_gt, Z.pow_pos_nonneg; lia.
    + symmetry. apply Z.compare_lt_iff.
      assert (2 ^ Zpos (digits2_pos p) <= 2 ^ (Zpos (digits2_pos q) - 1))
        by (apply Z.pow_le_mono_r; lia).
      lia.
    + symmetry. apply Z.compare_gt_iff.
      assert (2 ^ Zpos (digits2_pos q) <= 2 ^ (Zpos (digits2_pos p) - 1))
        by (apply Z.pow_le_mono_r; lia).
      lia.
Qed.

Lemma megabyte_value :
  mul (of_Z 1024) (of_Z 1024) = S754_finite false 4503599627370496 (-32).
Proof. vm_compute. reflexivity. Qed.

Lemma div_megabyte_normal (s : bool) (m : positive) (e : Z) :
  Zpos (digits2_pos m) = 53 -> -1053 <= e <= 971 ->
  div (S754_finite s m e) (mul (of_Z 1024) (of_Z 1024)) = S754_finite s m (e - 20).
Proof.
  intros Hd He. rewrite megabyte_value.
  unfold div. cbn [SFdiv]. unfold SFdiv_core_binary, fexp, emin.
  cbn [Zdigits2]. rewrite Hd.
  change (Zpos (digits2_pos 4503599627370496)) with 53.
  replace (Z.min (Z.max (53 + e - (53 + -32) - prec) (3 - emax - prec)) (e - -32))
    with (e - 21) by (unfold prec, emax; lia).
  replace (e - -32 - (e - 21)) with 53 by lia.
  cbv beta iota zeta.
  pose proof (Z_div_mod (Z.shiftl (Zpos m) 53) 4503599627370496 eq_refl) as Hdiv.
  destruct (Z.div_eucl (Z.shiftl (Zpos m) 53) 4503599627370496) as [q r].
  rewrite Z.shiftl_mul_pow2 in Hdiv by lia.
  change (2 ^ 53) with 9007199254740992 in Hdiv.
  assert (Hq : q = Zpos m~0) by lia.
  assert (Hr : r = 0) by lia.
  subst q r.
  change (new_location 4503599627370496 0) with loc_Exact.
  rewrite xorb_false_r.
  unfold binary_round_aux, shr_fexp, fexp, emin.
  cbn [Zdigits2 digits2_pos]. rewrite Pos2Z.inj_succ, Hd.
  replace (Z.max (Z.succ 53 + (e - 21) - prec) (3 - emax - prec) - (e - 21)) with 1
    by (unfold prec, emax; lia).
  cbn [shr shr_record_of_loc iter_pos shr_1 orb shr_m loc_of_shr_record
       round_nearest_even Zdigits2].
  rewrite Hd.
  replace (Z.max (53 + (e - 21 + 1) - prec) (3 - emax - prec) - (e - 21 + 1)) with 0
    by (unfold prec, emax; lia).
  cbn [shr shr_record_of_loc shr_m].
  replace (e - 21 + 1 <=? emax - prec) with true
    by (symmetry; apply Z.leb_le; unfold prec, emax; lia).
  f_equal. lia.
Qed.

(** Comparing in the other direction. *)
Lemma SFcompare_swap (x y : number) :
  SFcompare y x = option_map CompOpp (SFcompare x y).
Proof.
  destruct x as [sx | sx | | sx mx ex], y as [sy | sy | | sy my ey];
    cbn [SFcompare option_map]; try reflexivity;
    try (destruct sx; reflexivity); try (destruct sy; reflexivity);
    try (destruct sx, sy; reflexivity).
  rewrite (Z.compare_antisym ex ey).
  change (Pos.compare_cont Eq my mx) with (my ?= mx)%positive.
  change (Pos.compare_cont Eq mx my) with (mx ?= my)%positive.
  rewrite (Pos.compare_antisym mx my).
  destruct sx, sy; try reflexivity;
    destruct (ex ?= ey); cbn [CompOpp]; try reflexivity;
    destruct (mx ?= my)%positive; reflexivity.
Qed.

Lemma le_gt_false (x y : number) : le x y = true -> gt x y = false.
Proof.
  unfold le, gt, SFleb, SFltb. rewrite (SFcompare_swap x y).
  destruct (SFcompare x y) as [[ | | ] | ]; cbn; congruence.
Qed.



(** Below a positive constant, hence not above one of a larger exponent. *)
Lemma le_gt_larger_exponent (x : number) (ma mb : positive) (ea eb : Z) :
  ea < eb ->
  le x (S754_finite false ma ea) = true ->
  gt x (S754_finite false mb eb) = false.
Proof.
  intros Hlt. unfold le, gt, SFleb, SFltb.
  destruct x as [s | s | | s m e]; cbn [SFcompare]; try reflexivity.
  - destruct s; [reflexivity | discriminate].
  - destruct s; [reflexivity | ].
    destruct (Z.compare_spec e ea) as [Heq | Hl | Hg]; try discriminate; intros _;
      destruct (Z.compare_spec eb e); try reflexivity; lia.
Qed.

Lemma le_of_Z (a b : Z) :
  0 <= a < 2 ^ 53 -> 0 <= b < 2 ^ 53 -> le (of_Z a) (of_Z b) = (a <=? b).
Proof.
  intros Ha Hb. unfold le, SFleb. rewrite compare_of_Z by assumption.
  unfold Z.leb. destruct (a ?= b); reflexivity.
Qed.

Lemma gt_of_Z (a b : Z) :
  0 <= a < 2 ^ 53 -> 0 <= b < 2 ^ 53 -> gt (of_Z a) (of_Z b) = (b <? a).
Proof.
  intros Ha Hb. unfold gt, SFltb. rewrite compare_of_Z by assumption.
  unfold Z.ltb. destruct (b ?= a); reflexivity.
Qed.

(** The literals of the rule engine. *)
Lemma literal_0_005 : decimal 5 3 = S754_finite false 5764607523034235 (-60).
Proof. vm_compute. reflexivity. Qed.

Lemma literal_0_03 : decimal 3 2 = S754_finite false 8646911284551352 (-58).
Proof. vm_compute. reflexivity. Qed.

Lemma literal_2_42 : decimal 242 2 = S754_finite false 5449355549118300 (-51).
Proof. vm_compute. reflexivity. Qed.

Lemma literal_1_4 : decimal 14 1 = S754_finite false 6305039478318694 (-52).
Proof. vm_compute. reflexivity. Qed.

(** Each of them lies within half a unit in the last place of the decimal
    fraction it is written as. *)
Lemma literals_nearest :
  2 * Z.abs (5764607523034235 * 1000 - 5 * 2 ^ 60) <= 1000
  /\ 2 * Z.abs (8646911284551352 * 100 - 3 * 2 ^ 58) <= 100
  /\ 2 * Z.abs (5449355549118300 * 100 - 242 * 2 ^ 51) <= 100
  /\ 2 * Z.abs (6305039478318694 * 10 - 14 * 2 ^ 52) <= 10.
Proof. vm_compute. repeat split; discriminate. Qed.

Lemma Zdigits2_le (z k : Z) : 0 <= z < 2 ^ k -> 0 <= k -> 0 <= Zdigits2 z <= k.
Proof.
  intros Hz Hk. destruct z as [ | p | p]; cbn [Zdigits2]; [lia | | lia].
  destruct (digits2_bounds p) as [Hlo _].
  split; [lia | ].
  destruct (Z_le_gt_dec (Zpos (digits2_pos p)) k) as [ | Hgt]; [assumption | ].
  exfalso.
  assert (2 ^ k <= 2 ^ (Zpos (digits2_pos p) - 1)) by (apply Z.pow_le_mono_r; lia).
  lia.
Qed.

Lemma round_nearest_even_range (q : Z) (l : location) :
  q <= round_nearest_even q l <= q + 1.
Proof.
  unfold round_nearest_even.
  destruct l as [ | [ | | ]]; try lia.
  destruct (Z.even q); lia.
Qed.

Lemma shr_record_of_loc_m (m : Z) (l : location) : shr_m (shr_record_of_loc m l) = m.
Proof. destruct l as [ | [ | | ]]; reflexivity. Qed.

Lemma loc_of_shr_record_of_loc (m : Z) (l : location) :
  loc_of_shr_record (shr_record_of_loc m l) = l.
Proof. destruct l as [ | [ | | ]]; reflexivity. Qed.

(** Rounding a mantissa below 2^53 at the least exponent stays at the bottom
    of the range. *)
Lemma binary_round_aux_tiny (s : bool) (q : Z) (l : location) :
  0 <= q < 2 ^ 53 ->
  match binary_round_aux prec emax s q (-1074) l with
  | S754_finite _ _ e' => e' <= -1073
  | S754_infinity _ => False
  | _ => True
  end.
Proof.
  intros Hq.
  unfold binary_round_aux, shr_fexp. rewrite !fexp_binary64.
  pose proof (Zdigits2_le q 53 Hq ltac:(lia)) as Hd.
  replace (Z.max (Zdigits2 q + -1074 - 53) (-1074) - -1074) with 0 by lia.
  cbn [shr]. rewrite shr_record_of_loc_m, loc_of_shr_record_of_loc.
  pose proof (round_nearest_even_range q l) as Hr.
  set (q' := round_nearest_even q l) in *.
  assert (Hq' : 0 <= q' < 2 ^ 54) by (change (2 ^ 54) with (2 * 2 ^ 53); lia).
  pose proof (Zdigits2_le q' 54 Hq' ltac:(lia)) as Hd'.
  rewrite fexp_binary64.
  destruct (Z.max (Zdigits2 q' + -1074 - 53) (-1074) - -1074) as [ | k | k] eqn:Hk;
    cbn [shr].
  - cbn [shr_record_of_loc shr_m]. destruct q'; try exact I.
    cbn. lia.
  - destruct (shr_m (iter_pos shr_1 k (shr_record_of_loc q' loc_Exact))); try exact I.
    destruct (Z.leb_spec (-1074 + Zpos k) (emax - prec)) as [Hle | Hgt].
    + lia.
    + unfold emax, prec in Hgt. lia.
  - lia.
Qed.

Lemma div_megabyte_tiny (s : bool) (m : positive) (e : Z) :
  Zpos (digits2_pos m) <= 53 -> -1074 <= e < -1053 ->
  match div (S754_finite s m e) (mul (of_Z 1024) (of_Z 1024)) with
  | S754_finite _ _ e' => e' <= -1073
  | S754_infinity _ => False
  | _ => True
  end.
Proof.
  intros Hd He. rewrite megabyte_value.
  unfold div. cbn [SFdiv]. unfold SFdiv_core_binary. rewrite fexp_binary64.
  cbn [Zdigits2].
  change (Zpos (digits2_pos 4503599627370496)) with 53.
  replace (Z.min (Z.max (Zpos (digits2_pos m) + e - (53 + -32) - 53) (-1074)) (e - -32))
    with (-1074) by lia.
  destruct (e - -32 - -1074) as [ | k | k] eqn:Hk; try lia.
  pose proof (Z_div_mod (Z.shiftl (Zpos m) (Zpos k)) 4503599627370496 eq_refl) as Hdiv.
  destruct (Z.div_eucl (Z.shiftl (Zpos m) (Zpos k)) 4503599627370496) as [q r].
  apply binary_round_aux_tiny.
  rewrite Z.shiftl_mul_pow2 in Hdiv by lia.
  destruct (digits2_bounds m) as [_ Hm].
  assert (Hm53 : Zpos m < 2 ^ 53).
  { apply Z.lt_le_trans with (1 := Hm). apply Z.pow_le_mono_r; lia. }
  assert (Hk52 : 0 < 2 ^ Zpos k <= 2 ^ 52).
  { split; [apply Z.pow_pos_nonneg; lia | apply Z.pow_le_mono_r; lia]. }
  change (2 ^ 53) with 9007199254740992 in *.
  change (2 ^ 52) with 4503599627370496 in *.
  nia.
Qed.

Lemma gt_negative_result (mx ex : Z) (l : location) (mc : positive) (ec : Z) :
  gt (binary_round_aux prec emax true mx ex l) (S754_finite false mc ec) = false.
Proof.
  unfold binary_round_aux.
  destruct (shr_fexp prec emax mx ex l) as [mrs' e'].
  destruct (shr_fexp prec emax _ e' loc_Exact) as [mrs'' e''].
  destruct (shr_m mrs''); [reflexivity | | reflexivity].
  destruct (e'' <=? emax - prec); reflexivity.
Qed.

Lemma valid_finite (s : bool) (m : positive) (e : Z) :
  valid (S754_finite s m e) = true ->
  -1074 <= e <= 971
  /\ ((Zpos (digits2_pos m) = 53 /\ -1053 <= e)
      \/ (Zpos (digits2_pos m) <= 53 /\ e < -1053)).
Proof.
  unfold valid, valid_binary, bounded, canonical_mantissa.
  rewrite andb_true_iff, Z.eqb_eq, Z.leb_le, fexp_binary64.
  unfold emax, prec. lia.
Qed.

(** Dividing a binary64 value by [1024 * 1024] and comparing the quotient
    with [c] compares the value with [c * 1048576]: the division only lowers
    the exponent by 20, except at the bottom of the range, where both sides
    are far below the constants. *)
Lemma gt_div_megabyte (x : number) (mc : positive) (ec : Z) :
  valid x = true -> -1000 <= ec ->
  gt (div x (mul (of_Z 1024) (of_Z 1024))) (S754_finite false mc (ec - 20))
  = gt x (S754_finite false mc ec).
Proof.
  intros Hv Hec.
  destruct x as [s | s | | s m e].
  - rewrite megabyte_value. destruct s; reflexivity.
  - rewrite megabyte_value. destruct s; reflexivity.
  - reflexivity.
  - apply valid_finite in Hv. destruct Hv as [He Hshape].
    destruct s.
    + transitivity false; [ | reflexivity].
      rewrite megabyte_value. unfold div. cbn [SFdiv].
      destruct (SFdiv_core_binary prec emax (Zpos m) e (Zpos 4503599627370496) (-32))
        as [[mz ez] lz].
      apply gt_negative_result.
    + destruct Hshape as [[Hd Hlow] | [Hd Hlow]].
      * rewrite div_megabyte_normal by lia.
        unfold gt, SFltb. cbn [SFcompare].
        replace (ec - 20) with (-20 + ec) by lia.
        replace (e - 20) with (-20 + e) by lia.
        rewrite Z.add_compare_mono_l. reflexivity.
      * pose proof (div_megabyte_tiny false m e Hd ltac:(lia)) as Htiny.
        transitivity false.
        -- destruct (div (S754_finite false m e) (mul (of_Z 1024) (of_Z 1024)))
             as [s' | s' | | s' m' e']; try reflexivity; try contradiction.
           unfold gt, SFltb. cbn [SFcompare].
           destruct s'; [reflexivity | ].
           destruct (Z.compare_spec (ec - 20) e'); try reflexivity; lia.
        -- unfold gt, SFltb. cbn [SFcompare].
           destruct (Z.compare_spec ec e); try reflexivity; lia.
Qed.

End NumberFacts.

(** ** Rounding to nearest in binary64 *)

Section RoundingFacts.

























End RoundingFacts.


(** ** The rule engine *)

Section ValidationFacts.

Import Validation.

(** Case analysis on the threshold tests of a rule. *)
Ltac case_thresholds :=
  repeat match goal with
         | |- context [if gt ?x ?c then _ else _] => destruct (gt x c)
         end.

Lemma id_validateSkinWeights (stats : ModelStats) :
  id (validateSkinWeights stats) = "skin-weights"%string.
Proof.
  unfold validateSkinWeights.
  destruct (skinning stats) as [sk | ]; [ | reflexivity].
  case_thresholds; reflexivity.
Qed.

Lemma id_validateFileSize (stats : ModelStats) :
  id (validateFileSize stats) = "file-size"%string.
Proof.
  unfold validateFileSize.
  case_thresholds; reflexivity.
Qed.

Lemma category_validateSkinWeights (stats : ModelStats) :
  category (validateSkinWeights stats) = SkinWeights.
Proof.
  unfold validateSkinWeights.
  destruct (skinning stats) as [sk | ]; [ | reflexivity].
  case_thresholds; reflexivity.
Qed.

Lemma category_validateFileSize (stats : ModelStats) :
  category (validateFileSize stats) = FileIntegrity.
Proof.
  unfold validateFileSize.
  case_thresholds; reflexivity.
Qed.

(** The results of a report, in the order of the pushes. *)
Lemma results_runValidation (stats : ModelStats) (sel : UserSelection) (fn : string) :
  results (runValidation stats sel fn)
  = [validateTriangles stats (of_Z (Budgets.computeTriangleBudget sel));
     validateMaterials stats
       (of_Z (maxMaterials (Budgets.getBudgetConfig (targetSlot sel))));
     validateTextures stats
       (of_Z (maxTextures (Budgets.getBudgetConfig (targetSlot sel))));
     validateTextureSizes stats;
     validateTextureSquare stats;
     validateNormalMaps stats;
     validateMetallicRoughnessMaps stats]
    ++ (if has_skinning stats then [validateSkinWeights stats] else [])
    ++ [validateDimensions stats; validateFileIntegrity stats; validateFileSize stats].
Proof.
  unfold runValidation, has_skinning. cbn [results app].
  destruct (skinning stats); reflexivity.
Qed.

Lemma ids_runValidation (stats : ModelStats) (sel : UserSelection) (fn : string) :
  map id (results (runValidation stats sel fn)) = battery_ids (has_skinning stats).
Proof.
  rewrite results_runValidation. unfold battery_ids.
  destruct (has_skinning stats); cbn [map app];
    rewrite ?id_validateSkinWeights, id_validateFileSize; reflexivity.
Qed.

Lemma rule_by_id_skip (i : string) (r : RuleResult) (l : list RuleResult) :
  String.eqb (id r) i = false -> rule_by_id i (r :: l) = rule_by_id i l.
Proof. intros H. unfold rule_by_id. cbn [find]. rewrite H. reflexivity. Qed.

Lemma rule_by_id_hit (i : string) (r : RuleResult) (l : list RuleResult) :
  String.eqb (id r) i = true -> rule_by_id i (r :: l) = Some r.
Proof. intros H. unfold rule_by_id. cbn [find]. rewrite H. reflexivity. Qed.


Lemma skin_weights_rule_found (stats : ModelStats) (sel : UserSelection) (fn : string) :
  rule_by_id "skin-weights" (results (runValidation stats sel fn))
  = if has_skinning stats then Some (validateSkinWeights stats) else None.
Proof.
  rewrite results_runValidation. cbn [app].
  do 7 (rewrite rule_by_id_skip by reflexivity).
  destruct (has_skinning stats); cbn [app].
  - apply rule_by_id_hit. rewrite id_validateSkinWeights. reflexivity.
  - do 2 (rewrite rule_by_id_skip by reflexivity).
    rewrite rule_by_id_skip by (rewrite id_validateFileSize; reflexivity).
    reflexivity.
Qed.

Lemma file_size_rule_found (stats : ModelStats) (sel : UserSelection) (fn : string) :
  rule_by_id "file-size" (results (runValidation stats sel fn))
  = Some (validateFileSize stats).
Proof.
  rewrite results_runValidation. cbn [app].
  do 7 (rewrite rule_by_id_skip by reflexivity).
  destruct (has_skinning stats); cbn [app].
  - rewrite rule_by_id_skip by (rewrite id_validateSkinWeights; reflexivity).
    do 2 (rewrite rule_by_id_skip by reflexivity).
    apply rule_by_id_hit. rewrite id_validateFileSize. reflexivity.
  - do 2 (rewrite rule_by_id_skip by reflexivity).
    apply rule_by_id_hit. rewrite id_validateFileSize. reflexivity.
Qed.

(** The severity of the skin-weights rule on skinned statistics. *)
Lemma result_validateSkinWeights (stats : ModelStats) (sk : Skinning) :
  skinning stats = Some sk ->
  result (validateSkinWeights stats)
  = let badRatio := div (badWeightVertices sk) (totalVertices sk) in
    if gt badRatio (decimal 3 2) then FAIL
    else if gt badRatio (decimal 5 3) then WARN
    else PASS.
Proof.
  intros H. unfold validateSkinWeights. rewrite H. cbv zeta.
  case_thresholds; reflexivity.
Qed.

(** The severity of the file-size rule. *)
Lemma result_validateFileSize (stats : ModelStats) :
  result (validateFileSize stats)
  = let fileSizeMB := div (fileSizeBytes stats) (mul (of_Z 1024) (of_Z 1024)) in
    if gt fileSizeMB (of_Z 3) then FAIL
    else if gt fileSizeMB (of_Z 1) then WARN
    else PASS.
Proof.
  unfold validateFileSize. cbv zeta.
  case_thresholds; reflexivity.
Qed.

(** The same severity, read on the byte count. *)
Lemma result_validateFileSize_bytes (stats : ModelStats) :
  valid (fileSizeBytes stats) = true ->
  result (validateFileSize stats)
  = if gt (fileSizeBytes stats) (of_Z (3 * 1048576)) then FAIL
    else if gt (fileSizeBytes stats) (of_Z 1048576) then WARN
    else PASS.
Proof.
  intros Hv. rewrite result_validateFileSize. cbv zeta.
  change (of_Z 3) with (S754_finite false 6755399441055744 (-31 - 20)).
  change (of_Z 1) with (S754_finite false 4503599627370496 (-32 - 20)).
  rewrite !gt_div_megabyte by (try assumption; lia).
  reflexivity.
Qed.

(** The aggregation over an arbitrary list of rule results. *)
Lemma calculateOverallResult_spec (l : list RuleResult) :
  (Exists (fun r => result r = FAIL) l -> calculateOverallResult l = FAIL)
  /\ (~ Exists (fun r => result r = FAIL) l ->
      Exists (fun r => result r = WARN) l -> calculateOverallResult l = WARN)
  /\ (calculateOverallResult l = PASS <-> Forall (fun r => result r = PASS) l).
Proof.
  unfold calculateOverallResult.
  assert (HF : existsb (fun r => is_FAIL (result r)) l = true
               <-> Exists (fun r => result r = FAIL) l).
  { rewrite existsb_exists, Exists_exists.
    split; intros (r & Hr & H); exists r; split; try assumption;
      destruct (result r); try reflexivity; discriminate. }
  assert (HW : existsb (fun r => is_WARN (result r)) l = true
               <-> Exists (fun r => result r = WARN) l).
  { rewrite existsb_exists, Exists_exists.
    split; intros (r & Hr & H); exists r; split; try assumption;
      destruct (result r); try reflexivity; discriminate. }
  split; [ | split].
  - intros H. apply HF in H. rewrite H. reflexivity.
  - intros Hn H. apply HW in H. rewrite H.
    destruct (existsb (fun r => is_FAIL (result r)) l) eqn:E; [ | reflexivity].
    exfalso. apply Hn, HF. reflexivity.
  - destruct (existsb (fun r => is_FAIL (result r)) l) eqn:EF;
      [ | destruct (existsb (fun r => is_WARN (result r)) l) eqn:EW].
    + split; [discriminate | ]. intros Hall.
      destruct (proj1 (Exists_exists _ _) (proj1 HF eq_refl)) as (r & Hr & H).
      rewrite Forall_forall in Hall. specialize (Hall r Hr). congruence.
    + split; [discriminate | ]. intros Hall.
      destruct (proj1 (Exists_exists _ _) (proj1 HW eq_refl)) as (r & Hr & H).
      rewrite Forall_forall in Hall. specialize (Hall r Hr). congruence.
    + split; [ | reflexivity]. intros _.
      apply Forall_forall. intros r Hr.
      destruct (result r) eqn:Er; [reflexivity | | ].
      * assert (existsb (fun r => is_WARN (result r)) l = true)
          by (apply existsb_exists; exists r; rewrite Er; split; [assumption | reflexivity]).
        congruence.
      * assert (existsb (fun r => is_FAIL (result r)) l = true)
          by (apply existsb_exists; exists r; rewrite Er; split; [assumption | reflexivity]).
        congruence.
Qed.

End ValidationFacts.

Section ValidationClaims.

Import Validation.

(** C5.  The overall severity of a report is FAIL as soon as one of its rule
    results is FAIL, whatever the warnings; it is WARN when no result is FAIL
    and at least one is WARN; and it is PASS exactly when every result is
    PASS. *)
Theorem overall_aggregation (stats : ModelStats) (sel : UserSelection) (fn : string) :
  let report := runValidation stats sel fn in
  (Exists (fun r => result r = FAIL) (results report) -> overall report = FAIL)
  /\ (~ Exists (fun r => result r = FAIL) (results report) ->
      Exists (fun r => result r = WARN) (results report) ->
      overall report = WARN)
  /\ (overall report = PASS
      <-> Forall (fun r => result r = PASS) (results report)).
Proof.
  cbv zeta.
  change (overall (runValidation stats sel fn))
    with (calculateOverallResult (results (runValidation stats sel fn))).
  apply calculateOverallResult_spec.
Qed.

(** C6.  The results of a report are the rules triangles, materials,
    textures, texture-sizes, texture-square, normal-maps,
    metallic-roughness-maps, skin-weights (present exactly when the
    statistics carry skinning data), dimensions, file-integrity and
    file-size, in this order; no result belongs to the normals category. *)
Theorem rule_battery_order (stats : ModelStats) (sel : UserSelection) (fn : string) :
  let ids := map id (results (runValidation stats sel fn)) in
  ids = (["triangles"; "materials"; "textures"; "texture-sizes";
          "texture-square"; "normal-maps"; "metallic-roughness-maps"]
         ++ (if has_skinning stats then ["skin-weights"] else [])
         ++ ["dimensions"; "file-integrity"; "file-size"])%list%string
  /\ (In "skin-weights"%string ids <-> skinning stats <> None)
  /\ (skinning stats = None ->
      rule_by_id "skin-weights" (results (runValidation stats sel fn)) = None)
  /\ Forall (fun r => category r <> NormalsCategory)
            (results (runValidation stats sel fn)).
Proof.
  cbv zeta. rewrite ids_runValidation.
  split; [reflexivity | split; [ | split]].
  - unfold battery_ids, has_skinning.
    destruct (skinning stats) as [sk | ]; cbn [app In]; split.
    + intros _. discriminate.
    + intros _. do 7 right. left. reflexivity.
    + intros H. repeat (destruct H as [H | H]; [discriminate | ]). destruct H.
    + intros H. congruence.
  - intros H. rewrite skin_weights_rule_found. unfold has_skinning. rewrite H.
    reflexivity.
  - rewrite results_runValidation.
    destruct (has_skinning stats); cbn [app];
      repeat (apply Forall_cons; [ | ]); try apply Forall_nil;
      rewrite ?category_validateSkinWeights, ?category_validateFileSize;
      cbn [category validateTriangles validateMaterials validateTextures
           validateTextureSizes validateTextureSquare validateNormalMaps
           validateMetallicRoughnessMaps validateDimensions validateFileIntegrity];
      discriminate.
Qed.

(** C7.  On statistics with skinning data, the skin-weights rule of a report
    depends on [badRatio = badWeightVertices / totalVertices] only: PASS when
    [badRatio <= 0.005], WARN when [0.005 < badRatio <= 0.03], FAIL when
    [badRatio > 0.03]; the bounds are exclusive, a ratio equal to [0.005]
    passes and a ratio equal to [0.03] warns.  (Division and comparisons are
    those of binary64.) *)
Theorem skin_weights_thresholds (stats : ModelStats) (sel : UserSelection)
    (fn : string) (sk : Skinning) :
  skinning stats = Some sk ->
  let badRatio := div (badWeightVertices sk) (totalVertices sk) in
  exists r,
    rule_by_id "skin-weights" (results (runValidation stats sel fn)) = Some r
    /\ (le badRatio (decimal 5 3) = true -> result r = PASS)
    /\ (gt badRatio (decimal 5 3) = true -> le badRatio (decimal 3 2) = true ->
        result r = WARN)
    /\ (gt badRatio (decimal 3 2) = true -> result r = FAIL)
    /\ (badRatio = decimal 5 3 -> result r = PASS)
    /\ (badRatio = decimal 3 2 -> result r = WARN).
Proof.
  intros Hsk. cbv zeta.
  exists (validateSkinWeights stats).
  rewrite skin_weights_rule_found. unfold has_skinning. rewrite Hsk.
  rewrite (result_validateSkinWeights stats sk Hsk). cbv zeta.
  split; [reflexivity | ].
  repeat split.
  - intros Hle.
    rewrite (le_gt_false _ _ Hle).
    rewrite literal_0_005 in Hle. rewrite literal_0_03.
    rewrite (le_gt_larger_exponent _ 5764607523034235 8646911284551352 (-60) (-58)
               ltac:(lia) Hle).
    reflexivity.
  - intros Hgt Hle. rewrite (le_gt_false _ _ Hle), Hgt. reflexivity.
  - intros Hgt. rewrite Hgt. reflexivity.
  - intros ->. vm_compute. reflexivity.
  - intros ->. vm_compute. reflexivity.
Qed.

Lemma skin_weights_thresholds_witness :
  (exists r,
      rule_by_id "skin-weights"
        (results (runValidation
                    (createMockModelStats 1000
                       (Some {| totalVertices := of_Z 1000;
                                badWeightVertices := of_Z 5 |})
                       (500 * 1024))
                    createMockUserSelection "test.glb")) = Some r
      /\ result r = PASS)
  /\ (exists r,
         rule_by_id "skin-weights"
           (results (runValidation
                       (createMockModelStats 1000
                          (Some {| totalVertices := of_Z 1000;
                                   badWeightVertices := of_Z 10 |})
                          (500 * 1024))
                       createMockUserSelection "test.glb")) = Some r
         /\ result r = WARN)
  /\ (exists r,
         rule_by_id "skin-weights"
           (results (runValidation
                       (createMockModelStats 1000
                          (Some {| totalVertices := of_Z 1000;
                                   badWeightVertices := of_Z 30 |})
                          (500 * 1024))
                       createMockUserSelection "test.glb")) = Some r
         /\ result r = WARN)
  /\ (exists r,
         rule_by_id "skin-weights"
           (results (runValidation
                       (createMockModelStats 1000
                          (Some {| totalVertices := of_Z 1000;
                                   badWeightVertices := of_Z 50 |})
                          (500 * 1024))
                       createMockUserSelection "test.glb")) = Some r
         /\ result r = FAIL).
Proof.
  split; [ | split; [ | split]].
  - destruct (skin_weights_thresholds
                (createMockModelStats 1000
                   (Some {| totalVertices := of_Z 1000;
                            badWeightVertices := of_Z 5 |})
                   (500 * 1024))
                createMockUserSelection "test.glb"
                {| totalVertices := of_Z 1000; badWeightVertices := of_Z 5 |}
                eq_refl)
      as (r & Hfound & Hpass & _).
    exists r. split; [exact Hfound | ].
    apply Hpass. vm_compute. reflexivity.
  - destruct (skin_weights_thresholds
                (createMockModelStats 1000
                   (Some {| totalVertices := of_Z 1000;
                            badWeightVertices := of_Z 10 |})
                   (500 * 1024))
                createMockUserSelection "test.glb"
                {| totalVertices := of_Z 1000; badWeightVertices := of_Z 10 |}
                eq_refl)
      as (r & Hfound & _ & Hwarn & _).
    exists r. split; [exact Hfound | ].
    apply Hwarn; vm_compute; reflexivity.
  - destruct (skin_weights_thresholds
                (createMockModelStats 1000
                   (Some {| totalVertices := of_Z 1000;
                            badWeightVertices := of_Z 30 |})
                   (500 * 1024))
                createMockUserSelection "test.glb"
                {| totalVertices := of_Z 1000; badWeightVertices := of_Z 30 |}
                eq_refl)
      as (r & Hfound & _ & _ & _ & _ & Hedge).
    exists r. split; [exact Hfound | ].
    apply Hedge. vm_compute. reflexivity.
  - destruct (skin_weights_thresholds
                (createMockModelStats 1000
                   (Some {| totalVertices := of_Z 1000;
                            badWeightVertices := of_Z 50 |})
                   (500 * 1024))
                createMockUserSelection "test.glb"
                {| totalVertices := of_Z 1000; badWeightVertices := of_Z 50 |}
                eq_refl)
      as (r & Hfound & _ & _ & Hfail & _).
    exists r. split; [exact Hfound | ].
    apply Hfail. vm_compute. reflexivity.
Defined.




(** C9.  The file-size rule of a report is PASS when
    [fileSizeBytes <= 1048576], WARN when
    [1048576 < fileSizeBytes <= 3 * 1048576] and FAIL when
    [fileSizeBytes > 3 * 1048576]: the thresholds of 1 MB and 3 MB on the
    quotient by [1024 * 1024] are thresholds in bytes.  This holds for every
    binary64 value of [fileSizeBytes], and in particular for every integer
    byte count below 2^53. *)
Theorem file_size_thresholds (stats : ModelStats) (sel : UserSelection) (fn : string) :
  valid (fileSizeBytes stats) = true ->
  let bytes := fileSizeBytes stats in
  exists r,
    rule_by_id "file-size" (results (runValidation stats sel fn)) = Some r
    /\ (le bytes (of_Z 1048576) = true -> result r = PASS)
    /\ (gt bytes (of_Z 1048576) = true -> le bytes (of_Z (3 * 1048576)) = true ->
        result r = WARN)
    /\ (gt bytes (of_Z (3 * 1048576)) = true -> result r = FAIL)
    /\ (forall n : Z,
          0 <= n < 2 ^ 53 -> bytes = of_Z n ->
          (n <= 1048576 -> result r = PASS)
          /\ (1048576 < n <= 3 * 1048576 -> result r = WARN)
          /\ (3 * 1048576 < n -> result r = FAIL)).
Proof.
  intros Hv. cbv zeta.
  exists (validateFileSize stats).
  split; [apply file_size_rule_found | ].
  rewrite (result_validateFileSize_bytes stats Hv).
  split; [ | split; [ | split]].
  - intros Hle. rewrite (le_gt_false _ _ Hle).
    change (of_Z 1048576) with (S754_finite false 4503599627370496 (-32)) in Hle.
    change (of_Z (3 * 1048576)) with (S754_finite false 6755399441055744 (-31)).
    rewrite (le_gt_larger_exponent _ 4503599627370496 6755399441055744 (-32) (-31)
               ltac:(lia) Hle).
    reflexivity.
  - intros Hgt Hle. rewrite (le_gt_false _ _ Hle), Hgt. reflexivity.
  - intros Hgt. rewrite Hgt. reflexivity.
  - intros n Hn ->.
    rewrite !gt_of_Z
      by (try assumption; change (2 ^ 53) with 9007199254740992; lia).
    repeat split; intros H.
    + replace (3 * 1048576 <? n) with false by (symmetry; apply Z.ltb_ge; lia).
      replace (1048576 <? n) with false by (symmetry; apply Z.ltb_ge; lia).
      reflexivity.
    + replace (3 * 1048576 <? n) with false by (symmetry; apply Z.ltb_ge; lia).
      replace (1048576 <? n) with true by (symmetry; apply Z.ltb_lt; lia).
      reflexivity.
    + replace (3 * 1048576 <? n) with true by (symmetry; apply Z.ltb_lt; lia).
      reflexivity.
Qed.

Lemma file_size_thresholds_witness :
  (exists r,
      rule_by_id "file-size"
        (results (runValidation (createMockModelStats 1000 None 1048576)
                    createMockUserSelection "test.glb")) = Some r
      /\ result r = PASS)
  /\ (exists r,
         rule_by_id "file-size"
           (results (runValidation (createMockModelStats 1000 None 1048577)
                       createMockUserSelection "test.glb")) = Some r
         /\ result r = WARN)
  /\ (exists r,
         rule_by_id "file-size"
           (results (runValidation (createMockModelStats 1000 None (3 * 1048576))
                       createMockUserSelection "test.glb")) = Some r
         /\ result r = WARN)
  /\ (exists r,
         rule_by_id "file-size"
           (results (runValidation (createMockModelStats 1000 None (3 * 1048576 + 1))
                       createMockUserSelection "test.glb")) = Some r
         /\ result r = FAIL).
Proof.
  split; [ | split; [ | split]].
  - destruct (file_size_thresholds (createMockModelStats 1000 None 1048576)
                createMockUserSelection "test.glb" eq_refl)
      as (r & Hfound & Hpass & _).
    exists r. split; [exact Hfound | ]. apply Hpass. vm_compute. reflexivity.
  - destruct (file_size_thresholds (createMockModelStats 1000 None 1048577)
                createMockUserSelection "test.glb" eq_refl)
      as (r & Hfound & _ & Hwarn & _).
    exists r. split; [exact Hfound | ]. apply Hwarn; vm_compute; reflexivity.
  - destruct (file_size_thresholds (createMockModelStats 1000 None (3 * 1048576))
                createMockUserSelection "test.glb" eq_refl)
      as (r & Hfound & _ & _ & _ & Hint).
    exists r. split; [exact Hfound | ].
    apply (Hint (3 * 1048576)).
    + vm_compute. split; [discriminate | reflexivity].
    + reflexivity.
    + lia.
  - destruct (file_size_thresholds (createMockModelStats 1000 None (3 * 1048576 + 1))
                createMockUserSelection "test.glb" eq_refl)
      as (r & Hfound & _ & _ & Hfail & _).
    exists r. split; [exact Hfound | ]. apply Hfail. vm_compute. reflexivity.
Defined.

(** X1.  On integer counts the triangles rule compares the integers: with a
    selection of fewer than 2^32 hidden slots and a triangle count [n] below
    2^53, the rule passes exactly when [n] is at most the resolved budget,
    and fails otherwise. *)
Theorem triangles_rule_on_counts (stats : ModelStats) (sel : UserSelection) (n : Z) :
  Z.of_nat (List.length (hiddenSlots sel)) < 2 ^ 32 ->
  0 <= n < 2 ^ 53 ->
  triangleCount stats = of_Z n ->
  result (validateTriangles stats (of_Z (Budgets.computeTriangleBudget sel)))
  = if n <=? Budgets.computeTriangleBudget sel then PASS else FAIL.
Proof.
  intros Hlen Hn Hcount.
  unfold validateTriangles. cbn [result]. rewrite Hcount.
  rewrite le_of_Z by (try assumption; apply computeTriangleBudget_exact; assumption).
  reflexivity.
Qed.

Lemma triangles_rule_on_counts_witness :
  result (validateTriangles (createMockModelStats 1500 None (500 * 1024))
            (of_Z (Budgets.computeTriangleBudget createMockUserSelection))) = PASS
  /\ result (validateTriangles (createMockModelStats 1501 None (500 * 1024))
               (of_Z (Budgets.computeTriangleBudget createMockUserSelection))) = FAIL.
Proof.
  split.
  - rewrite (triangles_rule_on_counts (createMockModelStats 1500 None (500 * 1024))
               createMockUserSelection 1500).
    + reflexivity.
    + vm_compute. reflexivity.
    + vm_compute. split; [discriminate | reflexivity].
    + reflexivity.
  - rewrite (triangles_rule_on_counts (createMockModelStats 1501 None (500 * 1024))
               createMockUserSelection 1501).
    + reflexivity.
    + vm_compute. reflexivity.
    + vm_compute. split; [discriminate | reflexivity].
    + reflexivity.
Defined.

(** X2.  The percentage of the tip is the binary64 value of the expression: for
    12500 triangles against the budget 9000 of an [upper_body] hiding
    [lower_body], [feet], [hat], [hair] and [helmet], the quotient 0.28 times
    100 is 28.000000000000004 and the tip reads 29, while the exact ratio is
    28 percent. *)
Theorem triangles_tip_rounds_in_binary64 :
  let sel := {| targetSlot := upper_body;
                hiddenSlots := [lower_body; feet; hat; hair; helmet];
                handHidesBase := Some false |} in
  let stats := createMockModelStats 12500 None (500 * 1024) in
  Budgets.computeTriangleBudget sel = 9000
  /\ (12500 - 9000) * 100 = 28 * 12500
  /\ tip (validateTriangles stats (of_Z (Budgets.computeTriangleBudget sel)))
     = Some [Lit "Reduce triangles by "; Num (of_Z 29); Lit "%"].
Proof. cbv zeta. repeat split. Qed.

End ValidationClaims.

(** * Further properties *)

(** ** The budget tables and the resolver *)

Section BudgetExtras.

Import Budgets.

Lemma sum_Z_permutation (l l' : list Z) : Permutation l l' -> sum_Z l = sum_Z l'.
Proof.
  induction 1; cbn [sum_Z fold_right] in *; unfold sum_Z in *; lia.
Qed.

Lemma includes_permutation (l l' : list Slot) (s : Slot) :
  Permutation l l' -> includes l s = includes l' s.
Proof.
  intros Hp.
  destruct (includes l s) eqn:E, (includes l' s) eqn:E'; try reflexivity.
  - apply includes_In in E. apply (Permutation_in _ Hp) in E.
    apply includes_In in E. congruence.
  - apply includes_In in E'. apply (Permutation_in _ (Permutation_sym Hp)) in E'.
    apply includes_In in E'. congruence.
Qed.

Lemma forallb_pointwise {A : Type} (f g : A -> bool) (l : list A) :
  (forall x, f x = g x) -> forallb f l = forallb g l.
Proof.
  intros H. induction l as [ | a l IH]; cbn [forallb].
  - reflexivity.
  - rewrite H, IH. reflexivity.
Qed.

(** X3.  The budget depends on the hidden slots as a multiset only: two
    selections with the same target and [handHidesBase] whose hidden lists are
    permutations of each other resolve to the same budget. *)
Theorem budget_order_irrelevant (sel sel' : UserSelection) :
  targetSlot sel = targetSlot sel' ->
  handHidesBase sel = handHidesBase sel' ->
  Permutation (hiddenSlots sel) (hiddenSlots sel') ->
  computeTriangleBudget sel = computeTriangleBudget sel'.
Proof.
  intros Ht Hh Hp. unfold computeTriangleBudget.
  rewrite <- Ht, <- Hh, !sumHidden_sum.
  rewrite (sum_Z_permutation _ _ (Permutation_map BASE_TRI_BUDGET Hp)).
  replace (forallb (fun slot => includes (hiddenSlots sel') slot) HELMET_HIDE_SET)
    with (forallb (fun slot => includes (hiddenSlots sel) slot) HELMET_HIDE_SET).
  - reflexivity.
  - apply forallb_pointwise. intros s. apply includes_permutation. assumption.
Qed.

Lemma budget_order_irrelevant_witness :
  computeTriangleBudget
    {| targetSlot := upper_body; hiddenSlots := [feet; mask; hat];
       handHidesBase := None |}
  = computeTriangleBudget
      {| targetSlot := upper_body; hiddenSlots := [hat; feet; mask];
         handHidesBase := None |}.
Proof.
  apply budget_order_irrelevant.
  - reflexivity.
  - reflexivity.
  - simpl. apply Permutation_sym. apply perm_trans with (l' := [feet; hat; mask]).
    + apply perm_swap.
    + apply perm_skip. apply perm_swap.
Defined.

Lemma occurrences_nonneg (s : Slot) (l : list Slot) : 0 <= occurrences s l.
Proof. unfold occurrences. lia. Qed.

Lemma occurrences_In (s : Slot) (l : list Slot) : In s l -> 1 <= occurrences s l.
Proof.
  intros H. unfold occurrences.
  apply (proj1 (count_occ_In Slot_eq_dec l s)) in H. lia.
Qed.

(** X4.  The helmet override always lowers the budget: whenever
    [isHelmetSpecialRule] holds, the resolved budget is 4000 while the
    additive sum it replaces is at least 7500. *)
Theorem helmet_override_lowers_budget (sel : UserSelection) :
  isHelmetSpecialRule sel = true ->
  computeTriangleBudget sel = 4000
  /\ 7500 <= additive_budget sel
  /\ computeTriangleBudget sel + 3500 <= additive_budget sel.
Proof.
  intros Hrule.
  assert (Hbudget : computeTriangleBudget sel = 4000).
  { pose proof (proj1 (isHelmetSpecialRule_iff sel) Hrule) as [Ht _].
    rewrite computeTriangleBudget_general, Hrule.
    - reflexivity.
    - rewrite Ht. discriminate.
    - rewrite Ht. intros [H _]. discriminate. }
  assert (Hsum : 7500 <= additive_budget sel).
  { apply isHelmetSpecialRule_iff in Hrule. destruct Hrule as [Ht Hall].
    unfold additive_budget. rewrite Ht, sum_by_occurrences.
    unfold all_slots. cbn [map sum_Z fold_right BASE_TRI_BUDGET].
    pose proof (fun s => occurrences_nonneg s (hiddenSlots sel)) as Hnn.
    pose proof (fun s H => occurrences_In s (hiddenSlots sel) (Hall s H)) as Hin.
    pose proof (Hin head ltac:(simpl; tauto)).
    pose proof (Hin earring ltac:(simpl; tauto)).
    pose proof (Hin eyewear ltac:(simpl; tauto)).
    pose proof (Hin tiara ltac:(simpl; tauto)).
    pose proof (Hin hat ltac:(simpl; tauto)).
    pose proof (Hin facial_hair ltac:(simpl; tauto)).
    pose proof (Hin hair ltac:(simpl; tauto)).
    pose proof (Hin top_head ltac:(simpl; tauto)).
    pose proof (Hnn helmet). pose proof (Hnn upper_body).
    pose proof (Hnn lower_body). pose proof (Hnn feet). pose proof (Hnn mask).
    pose proof (Hnn hands). pose proof (Hnn skin).
    lia. }
  repeat split; try assumption. lia.
Qed.

Lemma helmet_override_lowers_budget_witness :
  computeTriangleBudget
    {| targetSlot := helmet;
       hiddenSlots := [head; earring; eyewear; tiara; hat; facial_hair; hair; top_head];
       handHidesBase := None |} = 4000
  /\ additive_budget
       {| targetSlot := helmet;
          hiddenSlots := [head; earring; eyewear; tiara; hat; facial_hair; hair;
                          top_head];
          handHidesBase := None |} = 7500.
Proof.
  split.
  - apply (helmet_override_lowers_budget
             {| targetSlot := helmet;
                hiddenSlots := [head; earring; eyewear; tiara; hat; facial_hair;
                                hair; top_head];
                handHidesBase := None |} eq_refl).
  - reflexivity.
Defined.

(** X5.  Every resolved budget lies between 500 and 5000 times one plus the
    number of hidden slots; in particular it is positive. *)
Theorem budget_bounds (sel : UserSelection) :
  500 <= computeTriangleBudget sel
  /\ computeTriangleBudget sel <= 5000 * (1 + Z.of_nat (List.length (hiddenSlots sel))).
Proof.
  pose proof (computeTriangleBudget_range sel). lia.
Qed.

(** X6.  The two budget tables agree and the resolver starts from them: for
    every slot the configuration carries the base budget of
    [BASE_TRI_BUDGET], at most 2 materials, and at most 2 textures (5 for the
    skin); only the helmet carries the override value, which is the 4000 the
    resolver returns; and with no hidden slot the budget is the slot's
    [baseTriangles], except for the hands with [handHidesBase]. *)
Theorem budget_tables_agree (s : Slot) (hides : option bool) :
  baseTriangles (getBudgetConfig s) = BASE_TRI_BUDGET s
  /\ maxMaterials (getBudgetConfig s) = 2
  /\ maxTextures (getBudgetConfig s) = (if Slot_eqb s skin then 5 else 2)
  /\ helmetAllHeadHiddenTriangles (getBudgetConfig s)
     = (if Slot_eqb s helmet then Some 4000 else None)
  /\ computeTriangleBudget
       {| targetSlot := s; hiddenSlots := []; handHidesBase := hides |}
     = (if Slot_eqb s hands && truthy hides then 1500
        else baseTriangles (getBudgetConfig s)).
Proof.
  destruct s; destruct hides as [[ | ] | ]; repeat split.
Qed.

Lemma NoDup_target_slots : NoDup getAvailableTargetSlots.
Proof.
  unfold getAvailableTargetSlots.
  repeat (apply NoDup_cons; [cbn [In]; intuition discriminate | ]).
  apply NoDup_nil.
Qed.

(** X7.  The slots offered for hiding are the target slots other than the
    chosen target, each once: no target chosen gives the empty list, the
    target itself and [head] are never offered, and for the skin the list is
    the one [getSkinRequiredHiddenSlots] forces, 13 slots long. *)
Theorem available_hidden_slots (target : option Slot) (s : Slot) :
  (target = None -> getAvailableHiddenSlots target = [])
  /\ (forall t, target = Some t ->
        (In s (getAvailableHiddenSlots target) <-> s <> head /\ s <> t))
  /\ NoDup (getAvailableHiddenSlots target)
  /\ ~ In head (getAvailableHiddenSlots target)
  /\ getSkinRequiredHiddenSlots = getAvailableHiddenSlots (Some skin)
  /\ List.length getSkinRequiredHiddenSlots = 13%nat.
Proof.
  split; [intros ->; reflexivity | ].
  split.
  { intros t ->. unfold getAvailableHiddenSlots. rewrite filter_In.
    rewrite negb_true_iff. split.
    - intros [Hin Hne]. split.
      + intros ->. cbn in Hin. intuition discriminate.
      + intros ->. rewrite Slot_eqb_refl in Hne. discriminate.
    - intros [Hhead Ht]. split.
      + destruct s; cbn; tauto.
      + apply Slot_eqb_neq. assumption. }
  split.
  { destruct target as [t | ]; [ | apply NoDup_nil].
    apply NoDup_filter, NoDup_target_slots. }
  split.
  { destruct target as [t | ]; [ | intros []].
    unfold getAvailableHiddenSlots. rewrite filter_In.
    intros [Hin _]. cbn in Hin. intuition discriminate. }
  split; reflexivity.
Qed.

End BudgetExtras.

(** ** The rules of a report *)

Section ValidationExtras.

Import Validation.

Lemma is_empty_filter {A : Type} (f : A -> bool) (l : list A) :
  is_empty (filter f l) = negb (existsb f l).
Proof.
  induction l as [ | a l IH]; cbn [filter existsb]; [reflexivity | ].
  destruct (f a); cbn [is_empty orb negb]; [reflexivity | exact IH].
Qed.

(** When each rule fails. *)
Lemma fails_validateTriangles (stats : ModelStats) (b : number) :
  is_FAIL (result (validateTriangles stats b)) = negb (le (triangleCount stats) b).
Proof. cbn. destruct (le _ _); reflexivity. Qed.

Lemma fails_validateMaterials (stats : ModelStats) (b : number) :
  is_FAIL (result (validateMaterials stats b))
  = negb (le (materialCountExclAvatarSkin stats) b).
Proof. cbn. destruct (le _ _); reflexivity. Qed.

Lemma fails_validateTextures (stats : ModelStats) (b : number) :
  is_FAIL (result (validateTextures stats b)) = negb (le (usedTextureCount stats) b).
Proof. cbn. destruct (le _ _); reflexivity. Qed.

Lemma fails_validateTextureSizes (stats : ModelStats) :
  is_FAIL (result (validateTextureSizes stats)) = existsb oversized (textures stats).
Proof.
  unfold validateTextureSizes. cbn [result].
  change (fun t : Texture => gt (tex_width t) (of_Z 1024) || gt (tex_height t) (of_Z 1024))
    with oversized.
  rewrite is_empty_filter. destruct (existsb oversized (textures stats)); reflexivity.
Qed.

Lemma fails_validateSkinWeights (stats : ModelStats) :
  is_FAIL (result (validateSkinWeights stats))
  = match skinning stats with
    | Some sk => gt (skin_ratio sk) (decimal 3 2)
    | None => false
    end.
Proof.
  unfold validateSkinWeights, skin_ratio.
  destruct (skinning stats) as [sk | ]; [ | reflexivity].
  destruct (gt _ (decimal 3 2)); [reflexivity | ].
  destruct (gt _ (decimal 5 3)); reflexivity.
Qed.

Lemma fails_validateDimensions (stats : ModelStats) :
  is_FAIL (result (validateDimensions stats)) = exceeds_dimensions (bbox stats).
Proof.
  unfold validateDimensions, exceeds_dimensions. cbn [result].
  destruct (_ || _ || _); reflexivity.
Qed.

Lemma fails_validateFileIntegrity (stats : ModelStats) :
  is_FAIL (result (validateFileIntegrity stats))
  = strict_eq (triangleCount stats) (of_Z 0)
    || strict_eq (materialCountExclAvatarSkin stats) (of_Z 0).
Proof.
  unfold validateFileIntegrity. cbn [result].
  destruct (strict_eq (triangleCount stats) _),
           (strict_eq (materialCountExclAvatarSkin stats) _); reflexivity.
Qed.

Lemma fails_validateFileSize (stats : ModelStats) :
  is_FAIL (result (validateFileSize stats)) = gt (fileSizeMB stats) (of_Z 3).
Proof.
  rewrite result_validateFileSize. unfold fileSizeMB. cbv zeta.
  destruct (gt _ (of_Z 3)); [reflexivity | ].
  destruct (gt _ (of_Z 1)); reflexivity.
Qed.

Lemma fails_validateTextureSquare (stats : ModelStats) :
  is_FAIL (result (validateTextureSquare stats)) = false.
Proof. cbn. destruct (is_empty _); reflexivity. Qed.

Lemma fails_validateNormalMaps (stats : ModelStats) :
  is_FAIL (result (validateNormalMaps stats)) = false.
Proof. cbn. destruct (hasNormalMaps stats); reflexivity. Qed.

Lemma fails_validateMetallicRoughnessMaps (stats : ModelStats) :
  is_FAIL (result (validateMetallicRoughnessMaps stats)) = false.
Proof. cbn. destruct (hasMetallicRoughnessMaps stats); reflexivity. Qed.

(** When each rule warns. *)
Lemma warns_validateTriangles (stats : ModelStats) (b : number) :
  is_WARN (result (validateTriangles stats b)) = false.
Proof. cbn. destruct (le _ _); reflexivity. Qed.

Lemma warns_validateMaterials (stats : ModelStats) (b : number) :
  is_WARN (result (validateMaterials stats b)) = false.
Proof. cbn. destruct (le _ _); reflexivity. Qed.

Lemma warns_validateTextures (stats : ModelStats) (b : number) :
  is_WARN (result (validateTextures stats b)) = false.
Proof. cbn. destruct (le _ _); reflexivity. Qed.

Lemma warns_validateTextureSizes (stats : ModelStats) :
  is_WARN (result (validateTextureSizes stats)) = false.
Proof. cbn. destruct (is_empty _); reflexivity. Qed.

Lemma warns_validateTextureSquare (stats : ModelStats) :
  is_WARN (result (validateTextureSquare stats)) = existsb non_square (textures stats).
Proof.
  unfold validateTextureSquare. cbn [result].
  change (fun t : Texture => strict_neq (tex_width t) (tex_height t)) with non_square.
  rewrite is_empty_filter. destruct (existsb non_square (textures stats)); reflexivity.
Qed.

Lemma warns_validateNormalMaps (stats : ModelStats) :
  is_WARN (result (validateNormalMaps stats)) = hasNormalMaps stats.
Proof. cbn. destruct (hasNormalMaps stats); reflexivity. Qed.

Lemma warns_validateMetallicRoughnessMaps (stats : ModelStats) :
  is_WARN (result (validateMetallicRoughnessMaps stats)) = hasMetallicRoughnessMaps stats.
Proof. cbn. destruct (hasMetallicRoughnessMaps stats); reflexivity. Qed.

Lemma warns_validateSkinWeights (stats : ModelStats) :
  is_WARN (result (validateSkinWeights stats))
  = match skinning stats with
    | Some sk => negb (gt (skin_ratio sk) (decimal 3 2))
                 && gt (skin_ratio sk) (decimal 5 3)
    | None => false
    end.
Proof.
  unfold validateSkinWeights, skin_ratio.
  destruct (skinning stats) as [sk | ]; [ | reflexivity].
  destruct (gt _ (decimal 3 2)); [reflexivity | ].
  destruct (gt _ (decimal 5 3)); reflexivity.
Qed.

Lemma warns_validateDimensions (stats : ModelStats) :
  is_WARN (result (validateDimensions stats)) = false.
Proof.
  unfold validateDimensions. cbn [result]. destruct (_ || _ || _); reflexivity.
Qed.

Lemma warns_validateFileIntegrity (stats : ModelStats) :
  is_WARN (result (validateFileIntegrity stats)) = false.
Proof.
  unfold validateFileIntegrity. cbn [result].
  destruct (strict_eq (triangleCount stats) _),
           (strict_eq (materialCountExclAvatarSkin stats) _); reflexivity.
Qed.

Lemma warns_validateFileSize (stats : ModelStats) :
  is_WARN (result (validateFileSize stats))
  = negb (gt (fileSizeMB stats) (of_Z 3)) && gt (fileSizeMB stats) (of_Z 1).
Proof.
  rewrite result_validateFileSize. unfold fileSizeMB. cbv zeta.
  destruct (gt _ (of_Z 3)); [reflexivity | ].
  destruct (gt _ (of_Z 1)); reflexivity.
Qed.

(** The overall severity as a function of the defects. *)
Lemma overall_by_defects (stats : ModelStats) (sel : UserSelection) (fn : string) :
  overall (runValidation stats sel fn)
  = if blocking_defect stats sel then FAIL
    else if advisory_defect stats then WARN
    else PASS.
Proof.
  change (overall (runValidation stats sel fn))
    with (calculateOverallResult (results (runValidation stats sel fn))).
  rewrite results_runValidation. unfold calculateOverallResult.
  rewrite !existsb_app. cbn [existsb].
  replace (existsb (fun r => is_FAIL (result r))
             (if has_skinning stats then [validateSkinWeights stats] else []))
    with (is_FAIL (result (validateSkinWeights stats))).
  2:{ unfold has_skinning, validateSkinWeights.
      destruct (skinning stats); cbn [existsb]; [rewrite orb_false_r | ]; reflexivity. }
  replace (existsb (fun r => is_WARN (result r))
             (if has_skinning stats then [validateSkinWeights stats] else []))
    with (is_WARN (result (validateSkinWeights stats))).
  2:{ unfold has_skinning, validateSkinWeights.
      destruct (skinning stats); cbn [existsb]; [rewrite orb_false_r | ]; reflexivity. }
  rewrite fails_validateTriangles, fails_validateMaterials, fails_validateTextures,
    fails_validateTextureSizes, fails_validateTextureSquare, fails_validateNormalMaps,
    fails_validateMetallicRoughnessMaps, fails_validateSkinWeights,
    fails_validateDimensions, fails_validateFileIntegrity, fails_validateFileSize.
  rewrite warns_validateTriangles, warns_validateMaterials, warns_validateTextures,
    warns_validateTextureSizes, warns_validateTextureSquare, warns_validateNormalMaps,
    warns_validateMetallicRoughnessMaps, warns_validateSkinWeights,
    warns_validateDimensions, warns_validateFileIntegrity, warns_validateFileSize.
  unfold blocking_defect, advisory_defect.
  set (f1 := negb (le (triangleCount stats) _)).
  set (f2 := negb (le (materialCountExclAvatarSkin stats) _)).
  set (f3 := negb (le (usedTextureCount stats) _)).
  set (f4 := existsb oversized _).
  set (f6 := exceeds_dimensions _).
  set (f7 := strict_eq (triangleCount stats) _).
  set (f8 := strict_eq (materialCountExclAvatarSkin stats) _).
  set (f9 := gt (fileSizeMB stats) (of_Z 3)).
  set (w1 := existsb non_square _).
  set (w5 := gt (fileSizeMB stats) (of_Z 1)).
  destruct (skinning stats) as [sk | ].
  - set (f5 := gt (skin_ratio sk) (decimal 3 2)).
    set (w4 := gt (skin_ratio sk) (decimal 5 3)).
    destruct f1, f2, f3, f4, f5, f6, f7, f8, f9; cbn [orb andb negb]; try reflexivity;
      destruct w1, (hasNormalMaps stats), (hasMetallicRoughnessMaps stats), w4, w5;
      reflexivity.
  - destruct f1, f2, f3, f4, f6, f7, f8, f9; cbn [orb andb negb]; try reflexivity;
      destruct w1, (hasNormalMaps stats), (hasMetallicRoughnessMaps stats), w5;
      reflexivity.
Qed.

(** X8.  The rule ids of a report are pairwise distinct, so a rule is found
    by its id exactly when it is a result of the report carrying that id. *)
Theorem rule_ids_unique (stats : ModelStats) (sel : UserSelection) (fn : string)
    (i : string) (r : RuleResult) :
  NoDup (map id (results (runValidation stats sel fn)))
  /\ (rule_by_id i (results (runValidation stats sel fn)) = Some r
      <-> In r (results (runValidation stats sel fn)) /\ id r = i).
Proof.
  assert (Hnd : NoDup (map id (results (runValidation stats sel fn)))).
  { rewrite ids_runValidation. unfold battery_ids.
    destruct (has_skinning stats); cbn [app];
      repeat (apply NoDup_cons; [cbn [In]; intuition discriminate | ]);
      apply NoDup_nil. }
  split; [exact Hnd | ].
  unfold rule_by_id.
  induction (results (runValidation stats sel fn)) as [ | a l IH]; cbn [find In map] in *.
  - split; [discriminate | intros [[] _]].
  - inversion Hnd as [ | ? ? Hnotin Hnd']; subst.
    destruct (String.eqb_spec (id a) i) as [Heq | Hne].
    + split.
      * intros H. injection H as <-. split; [left; reflexivity | assumption].
      * intros [[-> | Hin] Hid]; [reflexivity | ].
        exfalso. apply Hnotin. rewrite Heq, <- Hid. apply in_map. assumption.
    + rewrite (IH Hnd'). split.
      * intros [Hin Hid]. split; [right; assumption | assumption].
      * intros [[-> | Hin] Hid]; [contradiction | split; assumption].
Qed.

(** X9.  The overall severity of a report is FAIL exactly when the
    statistics show a blocking defect (triangles, materials or textures over
    the limit, an oversized texture, a bad-weight ratio above 0.03, a
    dimension exceeded, zero triangles or materials, more than 3 MB), WARN
    exactly when they show no blocking defect but an advisory one (a
    non-square texture, normal or metallic/roughness maps, a ratio above
    0.005, more than 1 MB), and PASS exactly when they show neither. *)
Theorem overall_criteria (stats : ModelStats) (sel : UserSelection) (fn : string) :
  (overall (runValidation stats sel fn) = FAIL <-> blocking_defect stats sel = true)
  /\ (overall (runValidation stats sel fn) = WARN
      <-> blocking_defect stats sel = false /\ advisory_defect stats = true)
  /\ (overall (runValidation stats sel fn) = PASS
      <-> blocking_defect stats sel = false /\ advisory_defect stats = false).
Proof.
  rewrite overall_by_defects.
  destruct (blocking_defect stats sel), (advisory_defect stats);
    repeat split; try discriminate; try reflexivity;
    intros [H1 H2]; discriminate.
Qed.

Lemma tip_when_fail_iff (c : bool) (t : text) :
  tip_when (is_FAIL (if c then PASS else FAIL)) t = None
  <-> (if c then PASS else FAIL) = PASS.
Proof. destruct c; cbn; split; congruence. Qed.

Lemma tip_when_fail_iff_rev (c : bool) (t : text) :
  tip_when (is_FAIL (if c then FAIL else PASS)) t = None
  <-> (if c then FAIL else PASS) = PASS.
Proof. destruct c; cbn; split; congruence. Qed.

Lemma tip_when_warn_iff (c : bool) (t : text) :
  tip_when (is_WARN (if c then PASS else WARN)) t = None
  <-> (if c then PASS else WARN) = PASS.
Proof. destruct c; cbn; split; congruence. Qed.

Lemma tip_validateSkinWeights (stats : ModelStats) :
  tip (validateSkinWeights stats) = None <-> result (validateSkinWeights stats) = PASS.
Proof.
  unfold validateSkinWeights.
  destruct (skinning stats) as [sk | ]; [ | cbn; tauto].
  destruct (gt _ (decimal 3 2)); [cbn; split; discriminate | ].
  destruct (gt _ (decimal 5 3)); cbn; split; intros H;
    first [discriminate H | reflexivity].
Qed.

Lemma tip_validateFileSize (stats : ModelStats) :
  tip (validateFileSize stats) = None <-> result (validateFileSize stats) = PASS.
Proof.
  unfold validateFileSize.
  destruct (gt _ (of_Z 3)); [cbn; split; discriminate | ].
  destruct (gt _ (of_Z 1)); cbn; split; intros H;
    first [discriminate H | reflexivity].
Qed.

Lemma In_existsb_string (x : string) (l : list string) :
  In x l -> existsb (String.eqb x) l = true.
Proof.
  intros H. apply existsb_exists. exists x. split; [assumption | apply String.eqb_refl].
Qed.

Lemma not_FAIL (r : RuleResult) : is_FAIL (result r) = false -> result r <> FAIL.
Proof. intros H E. rewrite E in H. discriminate. Qed.

Lemma not_WARN (r : RuleResult) : is_WARN (result r) = false -> result r <> WARN.
Proof. intros H E. rewrite E in H. discriminate. Qed.

(** Closes a membership of a literal id in a list of other literals. *)
Ltac not_member H := apply In_existsb_string in H; vm_compute in H; discriminate H.

(** X10.  In every report a rule result carries a tip exactly when it is not
    PASS; the rules triangles, materials, textures, texture-sizes, dimensions
    and file-integrity never warn, and the rules texture-square, normal-maps
    and metallic-roughness-maps never fail. *)
Theorem tips_and_severities (stats : ModelStats) (sel : UserSelection) (fn : string) :
  Forall (fun r =>
            (tip r = None <-> result r = PASS)
            /\ (In (id r) blocking_ids -> result r <> WARN)
            /\ (In (id r) advisory_ids -> result r <> FAIL))
         (results (runValidation stats sel fn)).
Proof.
  rewrite results_runValidation.
  apply Forall_app. split; [ | apply Forall_app; split].
  - repeat (apply Forall_cons; [ | ]); try apply Forall_nil.
    + split; [apply tip_when_fail_iff | ].
      split; intros Hid; [apply not_WARN, warns_validateTriangles | not_member Hid].
    + split; [apply tip_when_fail_iff | ].
      split; intros Hid; [apply not_WARN, warns_validateMaterials | not_member Hid].
    + split; [apply tip_when_fail_iff | ].
      split; intros Hid; [apply not_WARN, warns_validateTextures | not_member Hid].
    + split; [apply tip_when_fail_iff | ].
      split; intros Hid; [apply not_WARN, warns_validateTextureSizes | not_member Hid].
    + split; [apply tip_when_warn_iff | ].
      split; intros Hid; [not_member Hid | apply not_FAIL, fails_validateTextureSquare].
    + split; [apply tip_when_warn_iff | ].
      split; intros Hid; [not_member Hid | apply not_FAIL, fails_validateNormalMaps].
    + split; [apply tip_when_warn_iff | ].
      split; intros Hid;
        [not_member Hid | apply not_FAIL, fails_validateMetallicRoughnessMaps].
  - destruct (has_skinning stats); [ | apply Forall_nil].
    apply Forall_cons; [ | apply Forall_nil].
    rewrite id_validateSkinWeights.
    split; [apply tip_validateSkinWeights | split; intros Hid; not_member Hid].
  - repeat (apply Forall_cons; [ | ]); try apply Forall_nil.
    + split; [apply tip_when_fail_iff_rev | ].
      split; intros Hid; [apply not_WARN, warns_validateDimensions | not_member Hid].
    + split; [apply tip_when_fail_iff | ].
      split; intros Hid; [apply not_WARN, warns_validateFileIntegrity | not_member Hid].
    + rewrite id_validateFileSize.
      split; [apply tip_validateFileSize | split; intros Hid; not_member Hid].
Qed.

Lemma overall_FAIL_of_zero_count (stats : ModelStats) (sel : UserSelection)
    (fn : string) :
  strict_eq (triangleCount stats) (of_Z 0) = true
  \/ strict_eq (materialCountExclAvatarSkin stats) (of_Z 0) = true ->
  overall (runValidation stats sel fn) = FAIL.
Proof.
  intros H. rewrite overall_by_defects. unfold blocking_defect.
  destruct H as [H | H]; rewrite H; rewrite ?orb_true_r; reflexivity.
Qed.

(** X11.  A model with zero triangles, or with zero materials, is always
    reported FAIL overall, whatever the selection and the other statistics,
    even though a count of zero passes the triangles rule. *)
Theorem empty_geometry_fails (stats : ModelStats) (sel : UserSelection) (fn : string) :
  strict_eq (triangleCount stats) (of_Z 0) = true
  \/ strict_eq (materialCountExclAvatarSkin stats) (of_Z 0) = true ->
  overall (runValidation stats sel fn) = FAIL
  /\ exists r,
       rule_by_id "file-integrity" (results (runValidation stats sel fn)) = Some r
       /\ result r = FAIL.
Proof.
  intros H.
  assert (Hint : is_FAIL (result (validateFileIntegrity stats)) = true).
  { rewrite fails_validateFileIntegrity. apply orb_true_iff. exact H. }
  split.
  - apply overall_FAIL_of_zero_count. exact H.
  - exists (validateFileIntegrity stats). split.
    + rewrite results_runValidation. cbn [app].
      do 7 (rewrite rule_by_id_skip by reflexivity).
      destruct (has_skinning stats); cbn [app].
      * rewrite rule_by_id_skip by (rewrite id_validateSkinWeights; reflexivity).
        rewrite rule_by_id_skip by reflexivity.
        apply rule_by_id_hit. reflexivity.
      * rewrite rule_by_id_skip by reflexivity.
        apply rule_by_id_hit. reflexivity.
    + destruct (result (validateFileIntegrity stats)); try discriminate Hint.
      reflexivity.
Qed.

Lemma empty_geometry_fails_witness :
  overall (runValidation (createMockModelStats 0 None (500 * 1024))
             createMockUserSelection "test.glb") = FAIL
  /\ rule_by_id "triangles"
       (results (runValidation (createMockModelStats 0 None (500 * 1024))
                   createMockUserSelection "test.glb"))
     = Some (validateTriangles (createMockModelStats 0 None (500 * 1024)) (of_Z 1500))
  /\ result (validateTriangles (createMockModelStats 0 None (500 * 1024)) (of_Z 1500))
     = PASS.
Proof.
  split.
  - apply (empty_geometry_fails (createMockModelStats 0 None (500 * 1024))
             createMockUserSelection "test.glb").
    left. reflexivity.
  - split; reflexivity.
Defined.

(** X12.  The texture-sizes rule passes exactly when no texture is wider or
    taller than 1024 (an empty texture list passes, and so does a texture of
    1024 by 1024); otherwise it fails, counts the oversized textures and
    names them, in their order, in the tip.  On integer sizes the test is
    [1024 < width] or [1024 < height]. *)
Theorem texture_sizes_rule (stats : ModelStats) :
  let r := validateTextureSizes stats in
  let over := filter oversized (textures stats) in
  (result r = PASS <-> Forall (fun t => oversized t = false) (textures stats))
  /\ (textures stats = [] -> result r = PASS /\ tip r = None)
  /\ (over <> [] ->
      result r = FAIL
      /\ actual r = [Num (of_Z (Z.of_nat (List.length over)));
                     Lit " texture(s) exceed 1024×1024"]
      /\ tip r = Some [Lit "Resize "; Lit (String.concat ", " (map tex_name over));
                       Lit " to 1024×1024 or smaller"])
  /\ (forall (n : string) (w h : Z),
        0 <= w < 2 ^ 53 -> 0 <= h < 2 ^ 53 ->
        oversized {| tex_name := n; tex_width := of_Z w; tex_height := of_Z h |}
        = (1024 <? w) || (1024 <? h)).
Proof.
  cbv zeta. unfold validateTextureSizes. cbn [result tip actual].
  change (fun t : Texture => gt (tex_width t) (of_Z 1024) || gt (tex_height t) (of_Z 1024))
    with oversized.
  split; [ | split; [ | split]].
  - rewrite is_empty_filter.
    destruct (existsb oversized (textures stats)) eqn:E; cbn [negb].
    + split; [discriminate | ]. intros Hall.
      apply existsb_exists in E. destruct E as (t & Hin & Ht).
      rewrite Forall_forall in Hall. rewrite (Hall t Hin) in Ht. discriminate.
    + split; [ | reflexivity]. intros _.
      apply Forall_forall. intros t Hin.
      destruct (oversized t) eqn:Et; [ | reflexivity].
      assert (existsb oversized (textures stats) = true)
        by (apply existsb_exists; exists t; split; assumption).
      congruence.
  - intros ->. split; reflexivity.
  - intros Hne.
    destruct (filter oversized (textures stats)) as [ | t l] eqn:E; [contradiction | ].
    repeat split.
  - intros n w h Hw Hh. unfold oversized. cbn [tex_width tex_height].
    rewrite !gt_of_Z
      by (try assumption; change (2 ^ 53) with 9007199254740992; lia).
    reflexivity.
Qed.

(** X13.  A report carries at most one note.  The hands note is present
    exactly for the hands with [handHidesBase], and then the applied budget
    is the 1500 it announces; the helmet note is present exactly for a helmet
    with at least one hidden slot, also when the override applies and the
    applied budget is 4000 rather than a sum. *)
Theorem report_notes (stats : ModelStats) (sel : UserSelection) (fn : string) :
  let report := runValidation stats sel fn in
  let helmet_note :=
    "Helmet with hidden slots: triangle budget combines hidden slot budgets."%string in
  let hands_note :=
    "Hand accessory hides base hand: triangle budget increased to 1.5k."%string in
  (List.length (notes report) <= 1)%nat
  /\ (In hands_note (notes report)
      <-> targetSlot sel = hands /\ handHidesBase sel = Some true)
  /\ (In hands_note (notes report) -> appliedTriangleBudget report = 1500)
  /\ (In helmet_note (notes report)
      <-> targetSlot sel = helmet /\ hiddenSlots sel <> [])
  /\ (Budgets.isHelmetSpecialRule sel = true ->
      notes report = [helmet_note] /\ appliedTriangleBudget report = 4000).
Proof.
  cbv zeta. unfold runValidation. cbn [notes appliedTriangleBudget].
  unfold generateNotes.
  set (h := Slot_eqb (targetSlot sel) helmet && negb (is_empty (hiddenSlots sel))).
  set (g := Slot_eqb (targetSlot sel) hands && Budgets.truthy (handHidesBase sel)).
  assert (Hh : h = true <-> targetSlot sel = helmet /\ hiddenSlots sel <> []).
  { unfold h. rewrite andb_true_iff, Slot_eqb_eq.
    destruct (hiddenSlots sel); cbn [is_empty negb]; split; intros [H1 H2];
      split; try assumption; try reflexivity; try discriminate; contradiction. }
  assert (Hg : g = true <-> targetSlot sel = hands /\ handHidesBase sel = Some true).
  { unfold g. rewrite andb_true_iff, Slot_eqb_eq.
    destruct (handHidesBase sel) as [[ | ] | ]; cbn [Budgets.truthy];
      split; intros [H1 H2]; split; try assumption; try reflexivity; discriminate. }
  assert (Hdisjoint : h = true -> g = true -> False).
  { intros H1 H2. apply Hh in H1. apply Hg in H2.
    destruct H1 as [H1 _], H2 as [H2 _]. congruence. }
  assert (Hbudget : g = true -> Budgets.computeTriangleBudget sel = 1500).
  { intros H. apply Hg in H. destruct H as [Ht Hhides].
    unfold Budgets.computeTriangleBudget. rewrite Ht, Hhides. reflexivity. }
  assert (Hne : forall a b : string, String.eqb a b = false -> a = b -> False).
  { intros a b H E. rewrite E, String.eqb_refl in H. discriminate. }
  split; [ | split; [ | split; [ | split]]].
  - destruct h, g; cbn [app List.length]; try lia;
      exfalso; apply Hdisjoint; reflexivity.
  - rewrite <- Hg. destruct h, g; cbn [app In]; split; try reflexivity;
      try discriminate; try tauto.
    intros [H | []]. exfalso. revert H. apply Hne. reflexivity.
  - intros Hin. apply Hbudget.
    destruct g; [reflexivity | ].
    destruct h; cbn [app In] in Hin; [ | contradiction].
    destruct Hin as [H | []]. exfalso. revert H. apply Hne. reflexivity.
  - rewrite <- Hh. destruct h, g; cbn [app In]; split; try reflexivity;
      try discriminate; try tauto.
    intros [H | []]. exfalso. revert H. apply Hne. reflexivity.
  - intros Hrule.
    pose proof (proj1 (isHelmetSpecialRule_iff sel) Hrule) as [Ht Hall].
    assert (Hh' : h = true).
    { apply Hh. split; [assumption | ].
      intros Hnil. specialize (Hall head ltac:(simpl; tauto)).
      rewrite Hnil in Hall. contradiction. }
    assert (Hg' : g = false).
    { destruct g; [ | reflexivity]. exfalso. apply Hdisjoint; [assumption | reflexivity]. }
    rewrite Hh', Hg'. split; [reflexivity | ].
    rewrite computeTriangleBudget_general, Hrule.
    + reflexivity.
    + rewrite Ht. discriminate.
    + rewrite Ht. intros [H _]. discriminate.
Qed.

(** X14.  No rule reads the alpha modes or the normals of the statistics:
    replacing them changes neither the rule results, nor the overall
    severity, nor the notes of the report.  A blended or masked material is
    never flagged. *)
Theorem verdict_ignores_alpha_and_normals (stats : ModelStats)
    (modes : list AlphaMode) (n : Normals) (sel : UserSelection) (fn : string) :
  let stats' :=
    {| triangleCount := triangleCount stats;
       materialCountExclAvatarSkin := materialCountExclAvatarSkin stats;
       textures := textures stats;
       usedTextureCount := usedTextureCount stats;
       hasNormalMaps := hasNormalMaps stats;
       hasMetallicRoughnessMaps := hasMetallicRoughnessMaps stats;
       alphaModes := modes;
       bbox := bbox stats;
       normals := n;
       skinning := skinning stats;
       fileSizeBytes := fileSizeBytes stats |} in
  results (runValidation stats' sel fn) = results (runValidation stats sel fn)
  /\ overall (runValidation stats' sel fn) = overall (runValidation stats sel fn)
  /\ notes (runValidation stats' sel fn) = notes (runValidation stats sel fn).
Proof.
  cbv zeta. destruct stats. repeat split.
Qed.

End ValidationExtras.

(** ** Grouping the results by category *)

Section GroupingExtras.

Import Validation Report.




Lemma push_result_concat (acc : list (Category * list RuleResult)) (r : RuleResult) :
  Permutation (List.concat (map snd (push_result acc r))) (List.concat (map snd acc) ++ [r]).
Proof.
  induction acc as [ | [c rs] acc IH]; cbn [push_result map snd List.concat app].
  - reflexivity.
  - destruct (Category_eqb c (category r)); cbn [map snd List.concat].
    + rewrite <- !app_assoc. apply Permutation_app_head.
      apply Permutation_app_comm.
    + rewrite <- app_assoc. apply Permutation_app_head. exact IH.
Qed.

Lemma resultsByCategory_snoc (l : list RuleResult) (r : RuleResult) :
  resultsByCategory (l ++ [r]) = push_result (resultsByCategory l) r.
Proof. unfold resultsByCategory. rewrite fold_left_app. reflexivity. Qed.


Lemma resultsByCategory_permutation (l : list RuleResult) :
  Permutation (List.concat (map snd (resultsByCategory l))) l.
Proof.
  induction l as [ | r l IH] using rev_ind.
  - reflexivity.
  - rewrite resultsByCategory_snoc.
    eapply perm_trans; [apply push_result_concat | ].
    apply Permutation_app_tail. exact IH.
Qed.


Lemma calculateOverallResult_FAIL (l : list RuleResult) :
  calculateOverallResult l = FAIL <-> Exists (fun r => result r = FAIL) l.
Proof.
  split; [ | apply calculateOverallResult_spec].
  unfold calculateOverallResult. intros H.
  destruct (existsb (fun r => is_FAIL (result r)) l) eqn:E.
  - apply existsb_exists in E. destruct E as (r & Hr & Hf).
    apply Exists_exists. exists r. split; [assumption | ].
    destruct (result r); try discriminate Hf; reflexivity.
  - destruct (existsb (fun r => is_WARN (result r)) l); discriminate H.
Qed.

Lemma categorySeverity_is_overall (l : list RuleResult) :
  categorySeverity l = calculateOverallResult l.
Proof. reflexivity. Qed.

(** X16.  The results panel agrees with the report: in a report the
    categories come in the order Geometry, Materials, Textures/Maps, Skin
    Weights (when skinning data is present), Dimensions, File Integrity, the
    groups read one after the other are the results in their original
    order, and the overall severity is FAIL exactly when some category shows
    FAIL and PASS exactly when every category shows PASS. *)
Theorem report_categories (stats : ModelStats) (sel : UserSelection) (fn : string) :
  let report := runValidation stats sel fn in
  let groups := resultsByCategory (results report) in
  map fst groups
  = [Geometry; Materials; TexturesMaps]
    ++ (if has_skinning stats then [SkinWeights] else [])
    ++ [Dimensions; FileIntegrity]
  /\ List.concat (map snd groups) = results report
  /\ (overall report = FAIL
      <-> Exists (fun g => categorySeverity (snd g) = FAIL) groups)
  /\ (overall report = PASS
      <-> Forall (fun g => categorySeverity (snd g) = PASS) groups).
Proof.
  cbv zeta.
  assert (Hgroups :
    resultsByCategory (results (runValidation stats sel fn))
    = [(Geometry, [validateTriangles stats (of_Z (Budgets.computeTriangleBudget sel))]);
       (Materials,
        [validateMaterials stats
           (of_Z (maxMaterials (Budgets.getBudgetConfig (targetSlot sel))))]);
       (TexturesMaps,
        [validateTextures stats
           (of_Z (maxTextures (Budgets.getBudgetConfig (targetSlot sel))));
         validateTextureSizes stats; validateTextureSquare stats;
         validateNormalMaps stats; validateMetallicRoughnessMaps stats])]
      ++ (if has_skinning stats then [(SkinWeights, [validateSkinWeights stats])] else [])
      ++ [(Dimensions, [validateDimensions stats]);
          (FileIntegrity, [validateFileIntegrity stats; validateFileSize stats])]).
  { rewrite results_runValidation. unfold resultsByCategory.
    destruct (has_skinning stats); cbn [app fold_left push_result];
      rewrite ?category_validateSkinWeights, ?category_validateFileSize;
      cbn [category validateTriangles validateMaterials validateTextures
           validateTextureSizes validateTextureSquare validateNormalMaps
           validateMetallicRoughnessMaps validateDimensions validateFileIntegrity
           Category_eqb Category_eq_dec app];
      repeat match goal with
             | |- context [Category_eqb ?a ?b] =>
                 let v := eval vm_compute in (Category_eqb a b) in
                 change (Category_eqb a b) with v; cbv iota; cbn [app push_result];
                 rewrite ?category_validateSkinWeights, ?category_validateFileSize
             end;
      reflexivity. }
  assert (Hin : forall r, In r (results (runValidation stats sel fn))
                <-> exists g, In g (resultsByCategory (results (runValidation stats sel fn)))
                              /\ In r (snd g)).
  { intros r. split.
    - intros H.
      apply (Permutation_in _ (Permutation_sym (resultsByCategory_permutation _))) in H.
      apply in_concat in H. destruct H as (rs & Hrs & Hr).
      apply in_map_iff in Hrs. destruct Hrs as (g & <- & Hg). exists g. tauto.
    - intros (g & Hg & Hr).
      apply (Permutation_in _ (resultsByCategory_permutation _)).
      apply in_concat. exists (snd g). split; [apply in_map; assumption | assumption]. }
  split; [ | split; [ | split]].
  - rewrite Hgroups. destruct (has_skinning stats); reflexivity.
  - rewrite Hgroups, results_runValidation. destruct (has_skinning stats); reflexivity.
  - change (overall (runValidation stats sel fn))
      with (calculateOverallResult (results (runValidation stats sel fn))).
    rewrite calculateOverallResult_FAIL, !Exists_exists. split.
    + intros (r & Hr & Hf).
      apply Hin in Hr. destruct Hr as (g & Hg & Hr).
      exists g. split; [assumption | ].
      rewrite categorySeverity_is_overall. apply calculateOverallResult_FAIL.
      apply Exists_exists. exists r. tauto.
    + intros (g & Hg & Hs).
      rewrite categorySeverity_is_overall in Hs.
      apply calculateOverallResult_FAIL in Hs.
      apply Exists_exists in Hs. destruct Hs as (r & Hr & Hf).
      exists r. split; [apply Hin; exists g; tauto | assumption].
  - change (overall (runValidation stats sel fn))
      with (calculateOverallResult (results (runValidation stats sel fn))).
    destruct (calculateOverallResult_spec (results (runValidation stats sel fn)))
      as (_ & _ & HP).
    rewrite HP. split.
    + intros Hall. apply Forall_forall. intros g Hg.
      rewrite categorySeverity_is_overall.
      apply (proj2 (proj2 (calculateOverallResult_spec (snd g)))).
      apply Forall_forall. intros r Hr.
      rewrite Forall_forall in Hall. apply Hall. apply Hin. exists g. tauto.
    + intros Hall. apply Forall_forall. intros r Hr.
      apply Hin in Hr. destruct Hr as (g & Hg & Hr).
      rewrite Forall_forall in Hall. specialize (Hall g Hg).
      rewrite categorySeverity_is_overall in Hall.
      apply (proj2 (proj2 (calculateOverallResult_spec (snd g)))) in Hall.
      rewrite Forall_forall in Hall. apply Hall. assumption.
Qed.

End GroupingExtras.

(** ** The selection state of the application *)

Section StoreExtras.

Import Budgets.

Variable lib : GltfUtils.Library.

(** Reads the fields of an explicit state. *)
Ltac store_fields :=
  cbn [Store.targetSlot Store.hiddenSlots Store.file Store.model Store.modelStats
       Store.isLoading Store.error Store.handHidesBase Store.isDarkMode
       Store.showWireframe Store.materialView Store.showResults
       Store.validationReport] in *.

Lemma selection_ok_initial : selection_ok Store.initialState.
Proof.
  unfold selection_ok. cbn. repeat split; try (intros; contradiction);
    try discriminate. apply NoDup_nil.
Qed.

Lemma NoDup_skin_required : NoDup getSkinRequiredHiddenSlots.
Proof. apply NoDup_filter, NoDup_target_slots. Qed.

Lemma skin_required_iff (s : Slot) :
  In s getSkinRequiredHiddenSlots <-> In s getAvailableTargetSlots /\ s <> skin.
Proof.
  unfold getSkinRequiredHiddenSlots. rewrite filter_In, negb_true_iff. split.
  - intros [H1 H2]. split; [assumption | ].
    intros ->. rewrite Slot_eqb_refl in H2. discriminate.
  - intros [H1 H2]. split; [assumption | apply Slot_eqb_neq; assumption].
Qed.

Lemma available_hidden_iff (t s : Slot) :
  In s (getAvailableHiddenSlots (Some t)) <-> In s getAvailableTargetSlots /\ s <> t.
Proof.
  unfold getAvailableHiddenSlots. rewrite filter_In, negb_true_iff. split.
  - intros [H1 H2]. split; [assumption | ].
    intros ->. rewrite Slot_eqb_refl in H2. discriminate.
  - intros [H1 H2]. split; [assumption | apply Slot_eqb_neq; assumption].
Qed.

Lemma filter_not_eq_In (s x : Slot) (l : list Slot) :
  In x (filter (fun s' => negb (Slot_eqb s' s)) l) <-> In x l /\ x <> s.
Proof.
  rewrite filter_In, negb_true_iff. split.
  - intros [H1 H2]. split; [assumption | ].
    intros ->. rewrite Slot_eqb_refl in H2. discriminate.
  - intros [H1 H2]. split; [assumption | apply Slot_eqb_neq; assumption].
Qed.

Lemma selection_ok_choose (slot : option Slot) (state : Store.AppState) :
  offered (ChooseTarget slot) state ->
  selection_ok state ->
  selection_ok (ControlsPanel.handleTargetSlotChange slot state).
Proof.
  intros Hoff (Hnd & Hsub & Htarget & Hskin).
  unfold ControlsPanel.handleTargetSlotChange.
  destruct slot as [s | ].
  - cbn in Hoff. destruct (Slot_eqb s skin) eqn:Es.
    + apply Slot_eqb_eq in Es. subst s.
      unfold selection_ok. cbn. repeat split.
      * apply NoDup_skin_required.
      * intros x Hx. apply skin_required_iff in Hx. tauto.
      * injection H as <-. assumption.
      * injection H as <-. intros Hin. apply skin_required_iff in Hin. tauto.
    + unfold selection_ok. cbn. repeat split.
      * apply NoDup_filter. assumption.
      * intros x Hx. apply filter_not_eq_In in Hx. apply Hsub. tauto.
      * injection H as <-. assumption.
      * injection H as <-. intros Hin. apply filter_not_eq_In in Hin. tauto.
      * intros H. injection H as ->. rewrite Slot_eqb_refl in Es. discriminate.
  - unfold selection_ok. cbn. repeat split; try assumption; discriminate.
Qed.

Lemma toggle_under_skin (s : Slot) (state : Store.AppState) :
  selection_ok state ->
  Store.targetSlot state = Some skin ->
  In s (getAvailableHiddenSlots (Some skin)) ->
  ControlsPanel.handleHiddenSlotToggle s state = state.
Proof.
  intros (_ & _ & _ & Hskin) Ht Hs.
  unfold ControlsPanel.handleHiddenSlotToggle. rewrite Ht, (Hskin Ht).
  replace (includes getSkinRequiredHiddenSlots s) with true; [reflexivity | ].
  symmetry. apply includes_In. exact Hs.
Qed.

Lemma selection_ok_toggle (s : Slot) (state : Store.AppState) :
  offered (ToggleHidden s) state ->
  selection_ok state ->
  selection_ok (ControlsPanel.handleHiddenSlotToggle s state).
Proof.
  intros Hoff Hok. cbn in Hoff.
  destruct (Store.targetSlot state) as [t | ] eqn:Ht; [ | destruct Hoff].
  destruct (Slot_eq_dec t skin) as [-> | Hne].
  { rewrite toggle_under_skin; assumption. }
  destruct Hok as (Hnd & Hsub & Htarget & Hskin).
  apply available_hidden_iff in Hoff. destruct Hoff as [Hs Hst].
  unfold ControlsPanel.handleHiddenSlotToggle. rewrite Ht, (Slot_eqb_neq _ _ Hne).
  cbn [andb].
  destruct (includes (Store.hiddenSlots state) s) eqn:Ei;
    unfold selection_ok; cbn; repeat split.
  - apply NoDup_filter. assumption.
  - intros x Hx. apply filter_not_eq_In in Hx. apply Hsub. tauto.
  - apply (Htarget _ H).
  - intros Hin. apply filter_not_eq_In in Hin. apply (Htarget _ H). tauto.
  - intros H. congruence.
  - apply NoDup_app; [assumption | apply NoDup_cons; [intros [] | apply NoDup_nil] | ].
    intros x Hx [<- | []].
    apply includes_In in Hx. congruence.
  - intros x Hx. apply in_app_or in Hx. destruct Hx as [Hx | [<- | []]];
      [apply Hsub; assumption | assumption].
  - apply (Htarget _ H).
  - intros Hin. apply in_app_or in Hin. destruct Hin as [Hin | [<- | []]].
    + apply (Htarget _ H). assumption.
    + congruence.
  - intros H. congruence.
Qed.

Lemma selection_ok_perform (a : Action) (state : Store.AppState) :
  offered a state -> selection_ok state -> selection_ok (perform lib a state).
Proof.
  intros Hoff Hok. destruct a; cbn [perform];
    try exact Hok;
    try (apply selection_ok_choose; assumption);
    try (apply selection_ok_toggle; assumption);
    try apply selection_ok_initial.
  unfold ControlsPanel.handleAnalyze.
  destruct (Store.model state) as [m | ], (Store.targetSlot state); try exact Hok.
  destruct (GltfUtils.analyzeModelThrows lib m); exact Hok.
Qed.

Lemma reachable_selection_ok (state : Store.AppState) :
  reachable lib state -> selection_ok state.
Proof.
  induction 1 as [ | state a Hreach IH Hoff].
  - apply selection_ok_initial.
  - apply selection_ok_perform; assumption.
Qed.

(** X17.  In every state the application can reach, the hidden slots hold no
    slot twice, only target slots (never [head]), and never the current
    target. *)
Theorem selection_invariants (state : Store.AppState) :
  reachable lib state ->
  NoDup (Store.hiddenSlots state)
  /\ ~ In head (Store.hiddenSlots state)
  /\ (forall s, In s (Store.hiddenSlots state) -> In s getAvailableTargetSlots)
  /\ (forall t, Store.targetSlot state = Some t ->
        t <> head /\ ~ In t (Store.hiddenSlots state)).
Proof.
  intros Hreach.
  destruct (reachable_selection_ok state Hreach) as (Hnd & Hsub & Htarget & _).
  assert (Hhead : ~ In head getAvailableTargetSlots)
    by (cbn; intuition discriminate).
  repeat split; try assumption.
  - intros H. apply Hhead, Hsub, H.
  - intros ->. apply Hhead. apply (Htarget _ H).
  - apply (Htarget _ H).
Qed.

(** X18.  While the skin is the target, the hidden slots are exactly the
    thirteen other target slots, no check box changes them, and the budget
    card shows 5000. *)
Theorem skin_locks_hidden_slots (state : Store.AppState) :
  reachable lib state ->
  Store.targetSlot state = Some skin ->
  Store.hiddenSlots state = getSkinRequiredHiddenSlots
  /\ (forall s, offered (ToggleHidden s) state ->
        ControlsPanel.handleHiddenSlotToggle s state = state)
  /\ ControlsPanel.budgetCard state = Some 5000.
Proof.
  intros Hreach Ht.
  pose proof (reachable_selection_ok state Hreach) as Hok.
  split; [ | split].
  - destruct Hok as (_ & _ & _ & Hskin). apply Hskin. assumption.
  - intros s Hoff. cbn in Hoff. rewrite Ht in Hoff.
    apply toggle_under_skin; assumption.
  - unfold ControlsPanel.budgetCard. rewrite Ht. reflexivity.
Qed.

(** X19.  The helmet override cannot be reached through the interface: the
    head is never among the hidden slots, so in every reachable state
    [isHelmetSpecialRule] is false, and a helmet always resolves to the
    additive sum. *)
Theorem helmet_override_unreachable (state : Store.AppState) (t : Slot) :
  reachable lib state ->
  Store.targetSlot state = Some t ->
  isHelmetSpecialRule (ControlsPanel.userSelection t state) = false
  /\ (t = helmet ->
      ControlsPanel.budgetCard state
      = Some (1500 + sum_Z (map BASE_TRI_BUDGET (Store.hiddenSlots state)))).
Proof.
  intros Hreach Ht.
  destruct (reachable_selection_ok state Hreach) as (_ & Hsub & _ & _).
  assert (Hrule : isHelmetSpecialRule (ControlsPanel.userSelection t state) = false).
  { destruct (isHelmetSpecialRule _) eqn:E; [ | reflexivity].
    apply isHelmetSpecialRule_iff in E. destruct E as [_ Hall].
    specialize (Hall head ltac:(simpl; tauto)). cbn in Hall.
    apply Hsub in Hall. cbn in Hall. exfalso. intuition discriminate. }
  split; [exact Hrule | ].
  intros ->. unfold ControlsPanel.budgetCard. rewrite Ht. f_equal.
  rewrite computeTriangleBudget_general, Hrule.
  - reflexivity.
  - cbn. discriminate.
  - cbn. intros [H _]. discriminate.
Qed.

Lemma filter_absent (s : Slot) (l : list Slot) :
  ~ In s l -> filter (fun s' => negb (Slot_eqb s' s)) l = l.
Proof.
  induction l as [ | a l IH]; cbn [filter In]; intros H; [reflexivity | ].
  rewrite Slot_eqb_neq by (intros ->; apply H; left; reflexivity).
  cbn [negb]. rewrite IH by tauto. reflexivity.
Qed.

(** X20.  Checking and unchecking a slot restores the state: when the target
    is not the skin and the slot is not hidden, toggling it twice gives the
    state back; when it is hidden, toggling it twice removes it and appends
    it at the end of the list. *)
Theorem toggle_twice (state : Store.AppState) (s : Slot) :
  Store.targetSlot state <> Some skin ->
  (~ In s (Store.hiddenSlots state) ->
   ControlsPanel.handleHiddenSlotToggle s (ControlsPanel.handleHiddenSlotToggle s state)
   = state)
  /\ (In s (Store.hiddenSlots state) ->
      Store.hiddenSlots
        (ControlsPanel.handleHiddenSlotToggle s
           (ControlsPanel.handleHiddenSlotToggle s state))
      = filter (fun s' => negb (Slot_eqb s' s)) (Store.hiddenSlots state) ++ [s]).
Proof.
  intros Ht.
  assert (Hskin : match Store.targetSlot state with
                  | Some t => Slot_eqb t skin
                  | None => false
                  end = false).
  { destruct (Store.targetSlot state) as [t | ]; [ | reflexivity].
    apply Slot_eqb_neq. congruence. }
  destruct state as [f m ms ld er target hidden hides dark wire view shown report].
  cbn [Store.targetSlot Store.hiddenSlots] in *.
  unfold ControlsPanel.handleHiddenSlotToggle, Store.setHiddenSlots.
  cbn [Store.targetSlot Store.hiddenSlots Store.file Store.model Store.modelStats
       Store.isLoading Store.error Store.handHidesBase Store.isDarkMode
       Store.showWireframe Store.materialView Store.showResults
       Store.validationReport].
  rewrite Hskin. cbn [andb].
  split; intros Hs.
  - assert (Hi : includes hidden s = false).
    { destruct (includes hidden s) eqn:E; [ | reflexivity].
      apply includes_In in E. contradiction. }
    rewrite Hi.
    cbn [Store.targetSlot Store.hiddenSlots Store.file Store.model Store.modelStats
         Store.isLoading Store.error Store.handHidesBase Store.isDarkMode
         Store.showWireframe Store.materialView Store.showResults
         Store.validationReport].
    rewrite Hskin. cbn [andb].
    replace (includes (hidden ++ [s]) s) with true
      by (symmetry; apply includes_In, in_or_app; right; left; reflexivity).
    rewrite filter_app, (filter_absent s _ Hs). cbn [filter].
    rewrite Slot_eqb_refl. cbn [negb]. rewrite app_nil_r. reflexivity.
  - assert (Hi : includes hidden s = true) by (apply includes_In; assumption).
    rewrite Hi.
    cbn [Store.targetSlot Store.hiddenSlots Store.file Store.model Store.modelStats
         Store.isLoading Store.error Store.handHidesBase Store.isDarkMode
         Store.showWireframe Store.materialView Store.showResults
         Store.validationReport].
    rewrite Hskin. cbn [andb].
    assert (Hf : includes (filter (fun s' => negb (Slot_eqb s' s)) hidden) s = false).
    { destruct (includes (filter (fun s' => negb (Slot_eqb s' s)) hidden) s) eqn:E;
        [ | reflexivity].
      apply includes_In in E. apply filter_not_eq_In in E. tauto. }
    rewrite Hf. reflexivity.
Qed.

Lemma filter_twice (s : Slot) (l : list Slot) :
  filter (fun s' => negb (Slot_eqb s' s)) (filter (fun s' => negb (Slot_eqb s' s)) l)
  = filter (fun s' => negb (Slot_eqb s' s)) l.
Proof.
  apply filter_absent. intros H. apply filter_not_eq_In in H. tauto.
Qed.

(** X21.  Choosing a target makes it the target and removes it from the
    hidden slots, adds a hidden slot only when the skin is chosen, and
    choosing the same target again changes nothing. *)
Theorem choose_target (slot : option Slot) (state : Store.AppState) :
  let state' := ControlsPanel.handleTargetSlotChange slot state in
  Store.targetSlot state' = slot
  /\ (forall s, slot = Some s -> ~ In s (Store.hiddenSlots state'))
  /\ (slot <> Some skin ->
      forall s, In s (Store.hiddenSlots state') -> In s (Store.hiddenSlots state))
  /\ (slot = None -> Store.hiddenSlots state' = Store.hiddenSlots state)
  /\ ControlsPanel.handleTargetSlotChange slot state' = state'.
Proof.
  cbv zeta.
  destruct state as [f m ms ld er target hidden hides dark wire view shown report].
  unfold ControlsPanel.handleTargetSlotChange, Store.setTargetSlot, Store.setHiddenSlots.
  destruct slot as [s | ]; store_fields.
  - destruct (Slot_eqb s skin) eqn:Es; store_fields.
    + apply Slot_eqb_eq in Es. subst s. repeat split.
      * intros s H. injection H as <-. cbn. intuition discriminate.
      * intros H. congruence.
      * discriminate.
    + rewrite filter_twice. repeat split.
      * intros x H. injection H as <-. intros Hin.
        apply filter_not_eq_In in Hin. tauto.
      * intros _ x Hin. apply filter_not_eq_In in Hin. tauto.
      * discriminate.
  - repeat split; try discriminate. intros _ s H. exact H.
Qed.


End StoreExtras.

Lemma example_state_reachable : reachable example_library example_state.
Proof.
  unfold example_state.
  apply reachable_step; [apply reachable_step; [apply reachable_initial | ] | ];
    simpl; auto 20.
Qed.

Lemma example_skin_state_reachable : reachable example_library example_skin_state.
Proof.
  unfold example_skin_state.
  apply reachable_step; [apply reachable_initial | ]. simpl. auto 20.
Qed.

Lemma selection_invariants_witness :
  reachable example_library example_state
  /\ NoDup (Store.hiddenSlots example_state)
  /\ ~ In head (Store.hiddenSlots example_state).
Proof.
  split; [exact example_state_reachable | ].
  destruct (selection_invariants example_library example_state
              example_state_reachable) as (Hnd & Hhead & _).
  split; assumption.
Defined.

Lemma skin_locks_hidden_slots_witness :
  Store.targetSlot example_skin_state = Some skin
  /\ Store.hiddenSlots example_skin_state = Budgets.getSkinRequiredHiddenSlots
  /\ ControlsPanel.handleHiddenSlotToggle hat example_skin_state = example_skin_state
  /\ ControlsPanel.budgetCard example_skin_state = Some 5000.
Proof.
  split; [reflexivity | ].
  destruct (skin_locks_hidden_slots example_library example_skin_state
              example_skin_state_reachable eq_refl) as (Hhidden & Htoggle & Hcard).
  split; [exact Hhidden | split; [ | exact Hcard]].
  apply Htoggle. simpl. auto 20.
Defined.

Lemma helmet_override_unreachable_witness :
  Store.targetSlot example_state = Some helmet
  /\ Budgets.isHelmetSpecialRule (ControlsPanel.userSelection helmet example_state)
     = false
  /\ ControlsPanel.budgetCard example_state = Some 3000.
Proof.
  split; [reflexivity | ].
  destruct (helmet_override_unreachable example_library example_state helmet
              example_state_reachable eq_refl) as (Hrule & Hcard).
  split; [exact Hrule | exact (Hcard eq_refl)].
Defined.

Lemma toggle_twice_witness :
  Store.targetSlot example_state <> Some skin
  /\ ControlsPanel.handleHiddenSlotToggle mask
       (ControlsPanel.handleHiddenSlotToggle mask example_state) = example_state
  /\ Store.hiddenSlots
       (ControlsPanel.handleHiddenSlotToggle hat
          (ControlsPanel.handleHiddenSlotToggle hat example_state)) = [hat].
Proof.
  assert (Hskin : Store.targetSlot example_state <> Some skin) by discriminate.
  split; [exact Hskin | ].
  destruct (toggle_twice example_state mask Hskin) as (Hout & _).
  destruct (toggle_twice example_state hat Hskin) as (_ & Hin).
  split.
  - apply Hout. simpl. intros [H | []]. discriminate H.
  - apply Hin. simpl. auto.
Defined.

(** ** The statistics the analysis produces *)

Section GltfExtras.

Import GltfUtils.

Variable lib : Library.

Lemma filter_length_bound {A : Type} (f : A -> bool) (l : list A) :
  (List.length (filter f l) <= List.length l)%nat.
Proof.
  induction l as [ | a l IH]; cbn [filter List.length]; [lia | ].
  destruct (f a); cbn [List.length]; lia.
Qed.

Lemma filter_all {A : Type} (f : A -> bool) (l : list A) :
  (forall x, In x l -> f x = true) -> filter f l = l.
Proof.
  induction l as [ | a l IH]; cbn [filter In]; intros H; [reflexivity | ].
  rewrite (H a) by (left; reflexivity). rewrite IH; [reflexivity | ].
  intros x Hx. apply H. right. assumption.
Qed.

Lemma filter_none {A : Type} (f : A -> bool) (l : list A) :
  (forall x, In x l -> f x = false) -> filter f l = [].
Proof.
  induction l as [ | a l IH]; cbn [filter In]; intros H; [reflexivity | ].
  rewrite (H a) by (left; reflexivity). apply IH.
  intros x Hx. apply H. right. assumption.
Qed.

Lemma analyzeSkinning_range (skeleton : option Z) (g : BufferGeometry) :
  0 <= sd_badWeightVertices (analyzeSkinning skeleton g)
    <= sd_totalVertices (analyzeSkinning skeleton g).
Proof.
  unfold analyzeSkinning.
  destruct (skinIndex g) as [ia | ], (skinWeight g) as [wa | ];
    cbn [sd_totalVertices sd_badWeightVertices]; try lia.
  pose proof (filter_length_bound (badVertex (bonesLength skeleton) ia wa)
                (seq 0 (List.length ia))) as H.
  rewrite length_seq in H. lia.
Qed.

Lemma compared_with_zero (x : number) :
  isNaN x || lt x (of_Z 0) || ge x (of_Z 0) = true.
Proof. destruct x as [s | s | | s m e]; try destruct s; reflexivity. Qed.

(** X23.  A skinned mesh without skeleton, or with a skeleton of no bones,
    has all its vertices counted as bad: no joint index is below a bone
    count of zero. *)
Theorem no_bones_all_bad (skeleton : option Z) (g : BufferGeometry)
    (indexAttr weightAttr : list Vec4) :
  bonesLength skeleton = 0 ->
  skinIndex g = Some indexAttr ->
  skinWeight g = Some weightAttr ->
  sd_badWeightVertices (analyzeSkinning skeleton g)
  = sd_totalVertices (analyzeSkinning skeleton g)
  /\ sd_totalVertices (analyzeSkinning skeleton g) = Z.of_nat (List.length indexAttr).
Proof.
  intros Hb Hi Hw. unfold analyzeSkinning. rewrite Hi, Hw, Hb.
  cbn [sd_totalVertices sd_badWeightVertices].
  rewrite filter_all.
  - rewrite length_seq. split; reflexivity.
  - intros i _. unfold badVertex. cbv zeta.
    apply orb_true_iff. right.
    unfold components. cbn [existsb].
    rewrite compared_with_zero. reflexivity.
Qed.

Lemma skinning_sums (l : list SkinningData) (total bad : Z) :
  0 <= bad <= total ->
  (forall d, In d l -> 0 <= sd_badWeightVertices d <= sd_totalVertices d) ->
  0 <= fold_left (fun n d => n + sd_badWeightVertices d) l bad
    <= fold_left (fun n d => n + sd_totalVertices d) l total.
Proof.
  revert total bad. induction l as [ | d l IH]; intros total bad H0 Hl; cbn [fold_left].
  - assumption.
  - apply IH.
    + pose proof (Hl d (or_introl eq_refl)). lia.
    + intros x Hx. apply Hl. right. assumption.
Qed.

(** X24.  The statistics carry skinning data only when some skinned mesh has
    vertices: the total is then a positive integer and the bad vertices are
    at most the total, so the bad-weight ratio of the skin-weights rule is a
    quotient of such counts, never 0/0.  A model without skinned mesh has no
    skinning data, and its reports have no skin-weights rule. *)
Theorem skinning_guard (model : Object3D) (size : number) :
  let stats := analyzeModel lib model size in
  (forall sk, skinning stats = Some sk ->
     exists total bad : Z,
       totalVertices sk = of_Z total /\ badWeightVertices sk = of_Z bad
       /\ 0 < total /\ 0 <= bad <= total)
  /\ ((forall mesh, In mesh (traverseMeshes model) -> kind mesh = PlainMesh) ->
      skinning stats = None
      /\ forall sel fn,
           rule_by_id "skin-weights" (results (Validation.runValidation stats sel fn))
           = None).
Proof.
  cbv zeta. split.
  - intros sk. unfold analyzeModel. cbn [skinning].
    set (data := flat_map _ (traverseMeshes model)).
    destruct (Z.ltb_spec 0 (fold_left (fun n d => n + sd_totalVertices d) data 0))
      as [Hpos | Hzero]; [ | discriminate].
    intros H. injection H as <-. cbn [totalVertices badWeightVertices].
    eexists. eexists. split; [reflexivity | split; [reflexivity | ]].
    split; [assumption | ].
    apply skinning_sums; [lia | ].
    intros d Hd. unfold data in Hd. apply in_flat_map in Hd.
    destruct Hd as (mesh & _ & Hd).
    destruct (kind mesh); [destruct Hd | ].
    destruct Hd as [<- | []]. apply analyzeSkinning_range.
  - intros Hplain.
    assert (Hnone : skinning (analyzeModel lib model size) = None).
    { unfold analyzeModel. cbn [skinning].
      replace (flat_map
                 (fun mesh => match kind mesh with
                              | SkinnedMesh skeleton =>
                                  [analyzeSkinning skeleton (geometry mesh)]
                              | PlainMesh => []
                              end) (traverseMeshes model))
        with (@nil SkinningData); [reflexivity | ].
      symmetry. induction (traverseMeshes model) as [ | mesh l IH]; [reflexivity | ].
      cbn [flat_map]. rewrite (Hplain mesh (or_introl eq_refl)).
      apply IH. intros x Hx. apply Hplain. right. assumption. }
    split; [exact Hnone | ].
    intros sel fn. rewrite skin_weights_rule_found. unfold has_skinning.
    rewrite Hnone. reflexivity.
Qed.

Lemma set_add_In (materials : list Material) (mat x : Material) :
  In x (set_add materials mat) -> In x materials \/ x = mat.
Proof.
  unfold set_add. destruct (existsb _ materials); [tauto | ].
  intros H. apply in_app_or in H. destruct H as [H | [<- | []]]; tauto.
Qed.

Lemma material_set_visited (meshes : list Mesh) (set : list Material) (x : Material) :
  In x (fold_left (fun set mesh => fold_left set_add (materialArray mesh) set) meshes set) ->
  In x set \/ In x (flat_map materialArray meshes).
Proof.
  revert set. induction meshes as [ | mesh meshes IH]; intros set H;
    cbn [fold_left flat_map] in *; [tauto | ].
  apply IH in H. destruct H as [H | H]; [ | right; apply in_or_app; tauto].
  assert (Hin : In x set \/ In x (materialArray mesh)).
  { clear IH. revert set H.
    induction (materialArray mesh) as [ | mat mats IHm]; intros set H;
      cbn [fold_left] in H; [tauto | ].
    apply IHm in H. destruct H as [H | H]; [ | right; right; assumption].
    apply set_add_In in H. destruct H as [H | ->]; [tauto | right; left; reflexivity]. }
  destruct Hin as [Hin | Hin]; [tauto | right; apply in_or_app; tauto].
Qed.

(** X25.  A model whose meshes use no material but the avatar skin material
    (in particular a model without meshes) counts zero materials, and every
    report on it is FAIL overall. *)
Theorem avatar_skin_only_fails (model : Object3D) (size : number)
    (sel : UserSelection) (fn : string) :
  (forall mesh mat,
     In mesh (traverseMeshes model) -> In mat (materialArray mesh) ->
     name mat = "AvatarSkin_MAT"%string) ->
  let stats := analyzeModel lib model size in
  materialCountExclAvatarSkin stats = of_Z 0
  /\ overall (Validation.runValidation stats sel fn) = FAIL.
Proof.
  intros Hall. cbv zeta.
  assert (Hcount : materialCountExclAvatarSkin (analyzeModel lib model size) = of_Z 0).
  { unfold analyzeModel. cbn [materialCountExclAvatarSkin].
    rewrite filter_none; [reflexivity | ].
    intros x Hx. apply material_set_visited in Hx. destruct Hx as [[] | Hx].
    apply in_flat_map in Hx. destruct Hx as (mesh & Hmesh & Hmat).
    rewrite (Hall mesh x Hmesh Hmat). reflexivity. }
  split; [exact Hcount | ].
  apply overall_FAIL_of_zero_count. right. rewrite Hcount. reflexivity.
Qed.

Lemma existsb_flat_map {A B : Type} (p : B -> bool) (f : A -> list B) (l : list A) :
  existsb p (flat_map f l) = existsb (fun x => existsb p (f x)) l.
Proof.
  induction l as [ | x l IH]; [reflexivity | ].
  cbn [flat_map existsb]. rewrite existsb_app, IH. reflexivity.
Qed.

Lemma existsb_pointwise {A : Type} (p q : A -> bool) (l : list A) :
  (forall x, p x = q x) -> existsb p l = existsb q l.
Proof.
  intros H. induction l as [ | x l IH]; [reflexivity | ].
  cbn [existsb]. rewrite H, IH. reflexivity.
Qed.

Lemma nodup_length_le (l : list string) :
  (List.length (nodup string_dec l) <= List.length l)%nat.
Proof.
  induction l as [ | x l IH]; [apply le_n | ].
  cbn [nodup]. destruct (in_dec string_dec x l); cbn [List.length]; lia.
Qed.

Lemma flat_map_length_bound {A B : Type} (f : A -> list B) (l : list A) (k : nat) :
  (forall x, List.length (f x) <= k)%nat ->
  (List.length (flat_map f l) <= k * List.length l)%nat.
Proof.
  intros H. induction l as [ | x l IH]; [cbn; lia | ].
  cbn [flat_map]. rewrite length_app. cbn [List.length].
  pose proof (H x). lia.
Qed.

Lemma extractTextureStep_pushed (mat : Material) (info : TextureInfo)
    (ty : (Material -> option ThreeTexture) * string) :
  extractTextureStep mat info ty
  = {| info_textures := (info_textures info ++ pushed mat ty)%list;
       info_hasNormalMaps :=
         info_hasNormalMaps info || existsb is_normal (pushed mat ty);
       info_hasMetallicRoughnessMaps :=
         info_hasMetallicRoughnessMaps info
         || existsb is_metallic_roughness (pushed mat ty) |}.
Proof.
  unfold extractTextureStep, pushed.
  destruct info as [ts n m]. destruct (texture_image (fst ty mat)) as [img | ].
  - cbn [info_textures info_hasNormalMaps info_hasMetallicRoughnessMaps existsb].
    unfold is_normal, is_metallic_roughness. cbn [tex_name].
    destruct (String.eqb (snd ty) "normal"),
      (String.eqb (snd ty) "metallic" || String.eqb (snd ty) "roughness");
      rewrite ?orb_true_r, ?orb_false_r; reflexivity.
  - cbn [info_textures info_hasNormalMaps info_hasMetallicRoughnessMaps existsb].
    rewrite app_nil_r, !orb_false_r. reflexivity.
Qed.

Lemma extractTextureStep_fold (mat : Material)
    (types : list ((Material -> option ThreeTexture) * string)) (info : TextureInfo) :
  let r := fold_left (extractTextureStep mat) types info in
  info_textures r = (info_textures info ++ flat_map (pushed mat) types)%list
  /\ info_hasNormalMaps r
     = info_hasNormalMaps info || existsb is_normal (flat_map (pushed mat) types)
  /\ info_hasMetallicRoughnessMaps r
     = info_hasMetallicRoughnessMaps info
       || existsb is_metallic_roughness (flat_map (pushed mat) types).
Proof.
  cbv zeta. revert info.
  induction types as [ | ty types IH]; intros info; cbn [fold_left flat_map].
  - rewrite app_nil_r, !orb_false_r. repeat split.
  - destruct (IH (extractTextureStep mat info ty)) as (Ht & Hn & Hm).
    rewrite Ht, Hn, Hm, extractTextureStep_pushed.
    cbn [info_textures info_hasNormalMaps info_hasMetallicRoughnessMaps].
    rewrite !existsb_app, <- app_assoc, !orb_assoc. repeat split.
Qed.

Lemma pbr_textures_pushed (mat : Material) :
  (match texture_image (metalnessMap mat) with Some _ => true | None => false end)
  || (match texture_image (roughnessMap mat) with Some _ => true | None => false end)
  = true ->
  existsb is_metallic_roughness (flat_map (pushed mat) textureTypes) = true.
Proof.
  unfold textureTypes. cbn [flat_map]. rewrite !existsb_app.
  unfold pushed at 4 5. cbn [fst snd].
  destruct (texture_image (metalnessMap mat)), (texture_image (roughnessMap mat));
    cbn [existsb orb]; intros H; try discriminate H;
    unfold is_metallic_roughness; cbn [tex_name String.eqb Ascii.eqb Bool.eqb orb];
    rewrite ?orb_true_r; reflexivity.
Qed.

Lemma extractTextureInfo_flags (mat : Material) :
  let info := extractTextureInfo mat in
  info_textures info = flat_map (pushed mat) textureTypes
  /\ info_hasNormalMaps info = existsb is_normal (info_textures info)
  /\ info_hasMetallicRoughnessMaps info
     = existsb is_metallic_roughness (info_textures info).
Proof.
  cbv zeta. unfold extractTextureInfo.
  destruct (extractTextureStep_fold mat textureTypes
              {| info_textures := [];
                 info_hasNormalMaps := false;
                 info_hasMetallicRoughnessMaps := false |}) as (Ht & Hn & Hm).
  cbn [info_textures info_hasNormalMaps info_hasMetallicRoughnessMaps app orb] in *.
  pose proof (pbr_textures_pushed mat) as Hpbr.
  set (info := fold_left _ _ _) in *.
  destruct (isMeshStandardMaterial mat).
  - destruct (_ || _).
    + cbn [info_textures info_hasNormalMaps info_hasMetallicRoughnessMaps].
      rewrite Ht, Hn, Hpbr by reflexivity. repeat split.
    + rewrite Ht, Hn, Hm. repeat split.
  - rewrite Ht, Hn, Hm. repeat split.
Qed.

Lemma pushed_names (mat : Material) (t : Texture) :
  In t (flat_map (pushed mat) textureTypes) ->
  In (tex_name t) (map snd textureTypes).
Proof.
  intros H. apply in_flat_map in H. destruct H as (ty & Hty & H).
  unfold pushed in H. destruct (texture_image (fst ty mat)); [ | destruct H].
  destruct H as [<- | []]. cbn [tex_name]. apply in_map. assumption.
Qed.

Lemma pushed_length (mat : Material) :
  (List.length (flat_map (pushed mat) textureTypes) <= 7)%nat.
Proof.
  change 7%nat with (1 * List.length textureTypes)%nat.
  apply flat_map_length_bound. intros ty. unfold pushed.
  destruct (texture_image (fst ty mat)); cbn; lia.
Qed.

(** X26.  What the statistics say about textures hangs together: the model
    has normal maps exactly when a texture named normal is listed, and
    metallic/roughness maps exactly when one named metallic or roughness is
    (the extra test on standard materials adds nothing); every listed texture
    bears one of the seven names; there is one alpha mode per material
    visited, and at most seven textures for each; and the used-texture count, which
    counts distinct name-width-height keys, is an integer between 0 and the
    number of listed textures. *)
Theorem texture_statistics (model : Object3D) (size : number) :
  let stats := analyzeModel lib model size in
  let visited := flat_map materialArray (traverseMeshes model) in
  hasNormalMaps stats = existsb is_normal (textures stats)
  /\ hasMetallicRoughnessMaps stats = existsb is_metallic_roughness (textures stats)
  /\ Forall (fun t => In (tex_name t)
                        ["baseColor"; "emission"; "normal"; "metallic";
                         "roughness"; "ao"; "displacement"]%string)
            (textures stats)
  /\ List.length (alphaModes stats) = List.length visited
  /\ (List.length (textures stats) <= 7 * List.length visited)%nat
  /\ exists n : Z,
       usedTextureCount stats = of_Z n
       /\ 0 <= n <= Z.of_nat (List.length (textures stats)).
Proof.
  cbv zeta. unfold analyzeModel.
  cbn [hasNormalMaps hasMetallicRoughnessMaps textures alphaModes usedTextureCount].
  set (visited := flat_map materialArray (traverseMeshes model)).
  repeat split.
  - rewrite existsb_flat_map. apply existsb_pointwise.
    intros mat. apply (extractTextureInfo_flags mat).
  - rewrite existsb_flat_map. apply existsb_pointwise.
    intros mat. apply (extractTextureInfo_flags mat).
  - apply Forall_forall. intros t Ht. apply in_flat_map in Ht.
    destruct Ht as (mat & _ & Ht).
    rewrite (proj1 (extractTextureInfo_flags mat)) in Ht.
    exact (pushed_names mat t Ht).
  - apply length_map.
  - apply flat_map_length_bound. intros mat.
    rewrite (proj1 (extractTextureInfo_flags mat)). apply pushed_length.
  - eexists. split; [reflexivity | ]. split; [lia | ].
    unfold distinct_count. apply Nat2Z.inj_le.
    etransitivity; [apply nodup_length_le | ]. rewrite length_map. apply le_n.
Qed.

End GltfExtras.

Section GltfExamples.

Import GltfUtils.

Lemma no_bones_all_bad_witness :
  sd_badWeightVertices
    (analyzeSkinning None
       {| index := None; position := None;
          skinIndex := Some [ {| getX := of_Z 0; getY := of_Z 0;
                                 getZ := of_Z 0; getW := of_Z 0 |} ];
          skinWeight := Some [ {| getX := of_Z 1; getY := of_Z 0;
                                  getZ := of_Z 0; getW := of_Z 0 |} ] |}) = 1
  /\ sd_badWeightVertices
       (analyzeSkinning (Some 1)
          {| index := None; position := None;
             skinIndex := Some [ {| getX := of_Z 0; getY := of_Z 0;
                                    getZ := of_Z 0; getW := of_Z 0 |} ];
             skinWeight := Some [ {| getX := of_Z 1; getY := of_Z 0;
                                     getZ := of_Z 0; getW := of_Z 0 |} ] |}) = 0.
Proof.
  split.
  - rewrite (proj1 (no_bones_all_bad None
                      {| index := None; position := None;
                         skinIndex := Some [ {| getX := of_Z 0; getY := of_Z 0;
                                                getZ := of_Z 0; getW := of_Z 0 |} ];
                         skinWeight := Some [ {| getX := of_Z 1; getY := of_Z 0;
                                                 getZ := of_Z 0; getW := of_Z 0 |} ] |}
                      _ _ eq_refl eq_refl eq_refl)).
    reflexivity.
  - vm_compute. reflexivity.
Defined.

Lemma avatar_skin_only_fails_witness :
  materialCountExclAvatarSkin
    (GltfUtils.analyzeModel example_library example_avatar_model (of_Z 1024)) = of_Z 0
  /\ overall (Validation.runValidation
                (GltfUtils.analyzeModel example_library example_avatar_model (of_Z 1024))
                createMockUserSelection "avatar.glb") = FAIL.
Proof.
  apply (avatar_skin_only_fails example_library example_avatar_model (of_Z 1024)
           createMockUserSelection "avatar.glb").
  intros mesh mat Hmesh Hmat. cbn in Hmesh.
  destruct Hmesh as [<- | []]. cbn in Hmat. destruct Hmat as [<- | []].
  reflexivity.
Defined.

End GltfExamples.
